(** * Notes API of teen_theory_backend: a shallow embedding and its properties

    The development follows [Routes/notes.py] (the five request handlers
    [create_note], [get_all_notes], [get_my_notes], [update_note] and
    [delete_note]) and [models/notes_model.py] (the request schemas
    [NoteModel] and [NoteUpdateModel]).

    Documents are Python dictionaries, modelled as finite maps from field
    names to values; a collection is the list of its documents in natural
    order; the handlers run in a state-and-exception monad over the two
    collections they are given. *)

From Stdlib Require Import Strings.Byte Ascii String NArith List.
From stdpp Require Import gmap strings list fin_maps.

Open Scope string_scope.

(** ** BSON object identifiers *)

(** [bson.objectid.ObjectId]: the value is its [binary] representation.
    Identifiers generated by the driver have twelve bytes. *)
Record ObjectId := mkObjectId { binary : list byte }.

Global Instance byte_eq_dec : EqDecision byte := Byte.byte_eq_dec.

Global Instance ObjectId_eq_dec : EqDecision ObjectId.
Proof. solve_decision. Defined.

Module Hex.

(** One lower-case hexadecimal digit, as [binascii.hexlify] writes it. *)
Definition hexdigit (n : N) : ascii :=
  if (n <? 10)%N then ascii_of_N (48 + n) else ascii_of_N (87 + n).

(** [binascii.hexlify]: two digits for every byte. *)
Fixpoint hexlify (bs : list byte) : string :=
  match bs with
  | [] => ""
  | b :: bs' =>
      String (hexdigit (Byte.to_N b / 16))
        (String (hexdigit (Byte.to_N b mod 16)) (hexlify bs'))
  end.

(** The value of a hexadecimal digit, in either case. *)
Definition digit_value (c : ascii) : option N :=
  let n := N_of_ascii c in
  if ((48 <=? n) && (n <=? 57))%N then Some (n - 48)%N
  else if ((97 <=? n) && (n <=? 102))%N then Some (n - 87)%N
  else if ((65 <=? n) && (n <=? 70))%N then Some (n - 55)%N
  else None.

(** ASCII white space: tab, line feed, vertical tab, form feed, carriage
    return and space. *)
Definition Py_ISSPACE (c : ascii) : bool :=
  let n := N_of_ascii c in
  (((9 <=? n) && (n <=? 13)) || (n =? 32))%N.

(** [bytes.fromhex]: white space between bytes is skipped, every byte is
    two hexadecimal digits, anything else is a [ValueError] ([None]). *)
Fixpoint fromhex (s : string) : option (list byte) :=
  match s with
  | EmptyString => Some []
  | String c s' =>
      if Py_ISSPACE c then fromhex s'
      else
        match s' with
        | EmptyString => None
        | String d s'' =>
            match digit_value c, digit_value d with
            | Some top, Some bot =>
                match Byte.of_N (top * 16 + bot) with
                | Some b => cons b <$> fromhex s''
                | None => None
                end
            | _, _ => None
            end
        end
  end.

End Hex.

(** [ObjectId(note_id)] for a [str] argument: the string must have 24
    characters and be accepted by [bytes.fromhex]; otherwise the
    constructor raises [InvalidId], which is [None] here. *)
Definition ObjectId_of_str (oid : string) : option ObjectId :=
  if (String.length oid =? 24)%nat then mkObjectId <$> Hex.fromhex oid else None.

(** [str(object_id)]. *)
Definition ObjectId_str (o : ObjectId) : string := Hex.hexlify (binary o).

(** ** Values and documents *)

(** The values that occur in the documents of the two collections and in
    the bodies of the requests. [VNone] is Python's [None] (BSON and JSON
    null). *)
Inductive value :=
| VNone
| VBool (b : bool)
| VStr (s : string)
| VOid (o : ObjectId).

Global Instance value_eq_dec : EqDecision value.
Proof. solve_decision. Defined.

(** A document: a [dict] with string keys. *)
Abbreviation doc := (gmap string value).

(** [d.get(k)]: [None] when the key is missing. *)
Definition py_get (d : doc) (k : string) : value := default VNone (d !! k).

(** [str(v)]. *)
Definition py_str (v : value) : string :=
  match v with
  | VNone => "None"
  | VBool true => "True"
  | VBool false => "False"
  | VStr s => s
  | VOid o => ObjectId_str o
  end.

(** [not x] for a value that is [None] or a dictionary: [py_truthy]
    keeps the dictionary when it is not empty. *)
Definition py_truthy (x : option doc) : option doc :=
  match x with
  | Some d => if decide (d = ∅) then None else Some d
  | None => None
  end.

(** ** Collections *)

(** A query document [flt] selects the documents that carry, for every
    field of [flt], the value [flt] gives it. The server treats a missing
    field as null, which is what [py_get] returns. *)
Definition Matches (flt d : doc) : Prop :=
  map_Forall (λ k v, py_get d k = v) flt.

Global Instance Matches_dec flt d : Decision (Matches flt d).
Proof. unfold Matches. apply _. Defined.

(** Exceptions a handler can end with. [HTTPException] is what the
    handlers raise themselves; the others come from the framework, the
    driver and the interpreter. *)
Inductive exn :=
| HTTPException (status_code : nat) (detail : string)
| RequestValidationError
| DuplicateKeyError
| KeyError (key : string)
| TypeError.

Global Instance exn_eq_dec : EqDecision exn.
Proof. solve_decision. Defined.

Definition HTTP_400_BAD_REQUEST : nat := 400.
Definition HTTP_401_UNAUTHORIZED : nat := 401.
Definition HTTP_403_FORBIDDEN : nat := 403.
Definition HTTP_404_NOT_FOUND : nat := 404.

(** The operations of a collection the handlers use; a collection is the
    list of its documents in natural order. *)
Module Collection.

Definition find (flt : doc) (c : list doc) : list doc :=
  filter (Matches flt) c.

Definition find_one (flt : doc) (c : list doc) : option doc :=
  snd <$> list_find (Matches flt) c.

(** [update_one(flt, {"$set": fields})]: the first selected document
    takes the values of [fields] and keeps its other fields. *)
Definition update_one (flt fields : doc) (c : list doc) : list doc :=
  match list_find (Matches flt) c with
  | Some (i, d) => <[i := fields ∪ d]> c
  | None => c
  end.

Definition delete_one (flt : doc) (c : list doc) : list doc :=
  match list_find (Matches flt) c with
  | Some (i, _) => delete i c
  | None => c
  end.

(** [insert_one(document)]: a document without [_id] is given the
    identifier [generated] (the caller's dictionary is changed too, so
    it is returned); the server refuses an [_id] it already holds.
    The result is the inserted identifier, the caller's dictionary and
    the collection. *)
Definition insert_one (generated : ObjectId) (document : doc) (c : list doc)
  : exn + (value * doc * list doc) :=
  let document :=
    match document !! "_id" with
    | Some _ => document
    | None => <["_id" := VOid generated]> document
    end in
  if decide (py_get document "_id" ∈ (λ d, py_get d "_id") <$> c)
  then inl DuplicateKeyError
  else inr (py_get document "_id", document, (c ++ [document])%list).

End Collection.

(** ** The handlers' monad *)

(** The two collections of [db.database]: [get_user_collection()] and
    [notes()]. *)
Record db := mkDb {
  user_collection : list doc;
  notes_collection : list doc
}.

(** A computation reads and writes the collections and ends with a value
    or an exception; what was written before an exception stays. *)
Definition M (A : Type) : Type := db → (exn + A) * db.

Global Instance M_ret : MRet M := λ A a s, (inr a, s).

Global Instance M_bind : MBind M := λ A B f m s,
  match m s with
  | (inr a, s') => f a s'
  | (inl e, s') => (inl e, s')
  end.

Definition raise {A} (e : exn) : M A := λ s, (inl e, s).

Definition users_find_one (flt : doc) : M (option doc) :=
  λ s, (inr (Collection.find_one flt (user_collection s)), s).

Definition notes_find (flt : doc) : M (list doc) :=
  λ s, (inr (Collection.find flt (notes_collection s)), s).

Definition notes_find_one (flt : doc) : M (option doc) :=
  λ s, (inr (Collection.find_one flt (notes_collection s)), s).

Definition notes_insert_one (generated : ObjectId) (document : doc) : M (value * doc) :=
  λ s,
    match Collection.insert_one generated document (notes_collection s) with
    | inl e => (inl e, s)
    | inr (inserted_id, document, c) =>
        (inr (inserted_id, document), mkDb (user_collection s) c)
    end.

Definition notes_update_one (flt fields : doc) : M unit :=
  λ s, (inr (), mkDb (user_collection s)
                     (Collection.update_one flt fields (notes_collection s))).

Definition notes_delete_one (flt : doc) : M unit :=
  λ s, (inr (), mkDb (user_collection s)
                     (Collection.delete_one flt (notes_collection s))).

(** [d[k]]. *)
Definition py_getitem (d : doc) (k : string) : M value :=
  match d !! k with
  | Some v => mret v
  | None => raise (KeyError k)
  end.

(** [note["_id"] = str(note["_id"])]. *)
Definition stringify_id (note : doc) : M doc :=
  v ← py_getitem note "_id";
  mret (<["_id" := VStr (py_str v)]> note).

(** [for note in l: note["_id"] = str(note["_id"])]. *)
Fixpoint stringify_ids (l : list doc) : M (list doc) :=
  match l with
  | [] => mret []
  | note :: l' =>
      note' ← stringify_id note;
      l'' ← stringify_ids l';
      mret (note' :: l'')
  end.

(** ** Server time *)

(** What [datetime.now()] returns. *)
Record datetime := mkDatetime {
  year : nat; month : nat; day : nat;
  hour : nat; minute : nat; second : nat
}.

Module Strftime.

Definition digit (n : nat) : ascii := ascii_of_nat (48 + n).

(** The decimal digits of [n], most significant first, in front of
    [acc]. *)
Fixpoint dec_digits (fuel n : nat) (acc : string) : string :=
  match fuel with
  | O => acc
  | S fuel' =>
      let acc' := String (digit (n mod 10)) acc in
      if (n / 10 =? 0)%nat then acc' else dec_digits fuel' (n / 10) acc'
  end.

Definition dec (n : nat) : string := dec_digits (S n) n "".

Fixpoint zeros (k : nat) : string :=
  match k with
  | O => ""
  | S k' => String "0" (zeros k')
  end.

(** [n] in decimal, filled with zeros on the left up to [width]. *)
Definition zpad (width n : nat) : string :=
  zeros (width - String.length (dec n)) +:+ dec n.

End Strftime.

(** [t.strftime("%Y-%m-%d %H:%M:%S")]. *)
Definition strftime_Ymd_HMS (t : datetime) : string :=
  Strftime.zpad 4 (year t) +:+ "-" +:+ Strftime.zpad 2 (month t) +:+ "-" +:+
  Strftime.zpad 2 (day t) +:+ " " +:+ Strftime.zpad 2 (hour t) +:+ ":" +:+
  Strftime.zpad 2 (minute t) +:+ ":" +:+ Strftime.zpad 2 (second t).

(** ** Request schemas ([models/notes_model.py]) *)

(** A required [str] field of a request body. *)
Definition required_str (v : option value) : option string :=
  match v with
  | Some (VStr s) => Some s
  | _ => None
  end.

(** An [Optional[str]] field with default [None]: [Some None] when the
    field is missing or null, [None] when its value is not a string. *)
Definition optional_str (v : option value) : option (option string) :=
  match v with
  | None | Some VNone => Some None
  | Some (VStr s) => Some (Some s)
  | Some _ => None
  end.

Module NoteModel.

Record t := mk {
  id : option string;
  project_name : string;
  created_by_user_email : string;
  created_date : string;
  notes : string
}.

(** Validation of a request body against the schema; [None] is a
    validation error. [id] is read under its alias [_id] or, as
    [populate_by_name] is set, under its own name. *)
Definition validate (body : doc) : option t :=
  id ← optional_str (match body !! "_id" with
                     | Some v => Some v
                     | None => body !! "id"
                     end);
  project_name ← required_str (body !! "project_name");
  created_by_user_email ← required_str (body !! "created_by_user_email");
  created_date ← required_str (body !! "created_date");
  notes ← required_str (body !! "notes");
  Some (mk id project_name created_by_user_email created_date notes).

End NoteModel.

Module NoteUpdateModel.

Record t := mk {
  project_name : option string;
  notes : option string
}.

Definition validate (body : doc) : option t :=
  project_name ← optional_str (body !! "project_name");
  notes ← optional_str (body !! "notes");
  Some (mk project_name notes).

End NoteUpdateModel.

(** ** Responses *)

Inductive payload :=
| DataDoc (d : doc)
| DataList (l : list doc).

(** The dictionary a handler returns: [success], [message], [count] (the
    two list handlers only) and [data]. *)
Record response := mkResponse {
  success : bool;
  message : string;
  count : option nat;
  data : payload
}.

(** ** The handlers ([Routes/notes.py]) *)

Definition invalid_token : exn :=
  HTTPException HTTP_401_UNAUTHORIZED "Invalid or expired token".

Definition create_note (now : datetime) (generated : ObjectId)
    (note_data : NoteModel.t) (token : string) : M response :=
  user ← users_find_one {[ "token" := VStr token ]};
  match py_truthy user with
  | None => raise invalid_token
  | Some user =>
      let created_by_email := py_get user "email" in
      let note_doc : doc :=
        {[ "project_name" := VStr (NoteModel.project_name note_data);
           "created_by_user_email" := created_by_email;
           "created_date" := VStr (strftime_Ymd_HMS now);
           "notes" := VStr (NoteModel.notes note_data) ]} in
      '(inserted_id, note_doc) ← notes_insert_one generated note_doc;
      let note_doc := <["_id" := VStr (py_str inserted_id)]> note_doc in
      mret (mkResponse true "Note created successfully" None (DataDoc note_doc))
  end.

Definition get_all_notes (token : string) : M response :=
  user ← users_find_one {[ "token" := VStr token ]};
  match py_truthy user with
  | None => raise invalid_token
  | Some user =>
      all_notes ← notes_find ∅;
      all_notes ← stringify_ids all_notes;
      mret (mkResponse true "All notes retrieved successfully"
              (Some (length all_notes)) (DataList all_notes))
  end.

Definition get_my_notes (token : string) : M response :=
  user ← users_find_one {[ "token" := VStr token ]};
  match py_truthy user with
  | None => raise invalid_token
  | Some user =>
      let created_by_email := py_get user "email" in
      user_notes ← notes_find {[ "created_by_user_email" := created_by_email ]};
      user_notes ← stringify_ids user_notes;
      mret (mkResponse true "Your notes retrieved successfully"
              (Some (length user_notes)) (DataList user_notes))
  end.

(** The dictionary [update_fields] that [update_note] prepares: the fields
    of the payload that are not [None]. *)
Definition update_fields (update_data : NoteUpdateModel.t) : doc :=
  let update_fields : doc := ∅ in
  let update_fields :=
    match NoteUpdateModel.project_name update_data with
    | Some v => <["project_name" := VStr v]> update_fields
    | None => update_fields
    end in
  let update_fields :=
    match NoteUpdateModel.notes update_data with
    | Some v => <["notes" := VStr v]> update_fields
    | None => update_fields
    end in
  update_fields.

Definition update_note (note_id : string) (update_data : NoteUpdateModel.t)
    (token : string) : M response :=
  user ← users_find_one {[ "token" := VStr token ]};
  match py_truthy user with
  | None => raise invalid_token
  | Some user =>
      let created_by_email := py_get user "email" in
      match ObjectId_of_str note_id with
      | None => raise (HTTPException HTTP_400_BAD_REQUEST "Invalid note ID format")
      | Some object_id =>
          note ← notes_find_one {[ "_id" := VOid object_id ]};
          match py_truthy note with
          | None => raise (HTTPException HTTP_404_NOT_FOUND "Note not found")
          | Some note =>
              if decide (py_get note "created_by_user_email" ≠ created_by_email)
              then raise (HTTPException HTTP_403_FORBIDDEN
                            "You can only update your own notes")
              else
                let update_fields := update_fields update_data in
                if decide (update_fields = ∅)
                then raise (HTTPException HTTP_400_BAD_REQUEST "No fields to update")
                else
                  notes_update_one {[ "_id" := VOid object_id ]} update_fields;;
                  updated_note ← notes_find_one {[ "_id" := VOid object_id ]};
                  match updated_note with
                  | None => raise TypeError
                  | Some updated_note =>
                      updated_note ← stringify_id updated_note;
                      mret (mkResponse true "Note updated successfully" None
                              (DataDoc updated_note))
                  end
          end
      end
  end.

Definition delete_note (note_id : string) (token : string) : M response :=
  user ← users_find_one {[ "token" := VStr token ]};
  match py_truthy user with
  | None => raise invalid_token
  | Some user =>
      let created_by_email := py_get user "email" in
      match ObjectId_of_str note_id with
      | None => raise (HTTPException HTTP_400_BAD_REQUEST "Invalid note ID format")
      | Some object_id =>
          note ← notes_find_one {[ "_id" := VOid object_id ]};
          match py_truthy note with
          | None => raise (HTTPException HTTP_404_NOT_FOUND "Note not found")
          | Some note =>
              if decide (py_get note "created_by_user_email" ≠ created_by_email)
              then raise (HTTPException HTTP_403_FORBIDDEN
                            "You can only delete your own notes")
              else
                notes_delete_one {[ "_id" := VOid object_id ]};;
                mret (mkResponse true "Note deleted successfully" None
                        (DataDoc {[ "_id" := VStr note_id; "deleted" := VBool true ]}))
          end
      end
  end.

(** The routes with a request body: the framework validates the body
    against the handler's schema and calls the handler with the result. *)
Definition post_create (now : datetime) (generated : ObjectId)
    (body : doc) (token : string) : M response :=
  match NoteModel.validate body with
  | None => raise RequestValidationError
  | Some note_data => create_note now generated note_data token
  end.

Definition put_update (note_id : string) (body : doc) (token : string) : M response :=
  match NoteUpdateModel.validate body with
  | None => raise RequestValidationError
  | Some update_data => update_note note_id update_data token
  end.

(** ** Vocabulary of the statements *)

(** The user record the bearer credential [token] identifies: the first
    record of the user collection whose [token] field is the credential. *)
Definition authenticated (s : db) (token : string) (user : doc) : Prop :=
  Collection.find_one {[ "token" := VStr token ]} (user_collection s) = Some user.

(** No user record has the credential as its [token]. *)
Definition unknown_token (s : db) (token : string) : Prop :=
  Forall (λ u, py_get u "token" ≠ VStr token) (user_collection s).

(** The outcome of a request whose credential is refused: the exception
    and the collections as they were. *)
Definition unauthorized (s : db) : (exn + response) * db :=
  (inl (HTTPException 401 "Invalid or expired token"), s).

(** The note the collection holds under an identifier, if any. *)
Definition note_by_id (s : db) (object_id : ObjectId) : option doc :=
  Collection.find_one {[ "_id" := VOid object_id ]} (notes_collection s).

(** The collection holds no document under the identifier yet. *)
Definition fresh_id (generated : ObjectId) (c : list doc) : Prop :=
  VOid generated ∉ ((λ d, py_get d "_id") <$> c).

Global Instance fresh_id_dec generated c : Decision (fresh_id generated c).
Proof. unfold fresh_id. apply _. Defined.

(** The server gives every stored document an [_id]. *)
Definition has_id (d : doc) : Prop := is_Some (d !! "_id").

(** An identifier as the driver generates it: twelve bytes. *)
Definition driver_id (v : value) : Prop :=
  match v with
  | VOid o => length (binary o) = 12
  | _ => False
  end.

Global Instance driver_id_dec v : Decision (driver_id v).
Proof. destruct v; simpl; apply _. Defined.

(** The note collection as the create handler fills it: every note under
    an identifier of the driver, no identifier twice. *)
Record wf_notes (c : list doc) : Prop := mk_wf_notes {
  wf_ids : Forall (λ d, driver_id (py_get d "_id")) c;
  wf_unique : NoDup ((λ d, py_get d "_id") <$> c)
}.

Global Instance wf_notes_dec c : Decision (wf_notes c).
Proof.
  refine (cast_if_and
            (decide (Forall (λ d, driver_id (py_get d "_id")) c))
            (decide (NoDup ((λ d, py_get d "_id") <$> c))));
    [by split|by intros []..].
Defined.

(** A note as the handlers return it, with [_id] turned into a string. *)
Definition rendered (d : doc) : doc :=
  <["_id" := VStr (py_str (py_get d "_id"))]> d.

(** The document [create_note] hands to the collection, once the driver
    has given it the identifier [generated]. *)
Definition stored_note (now : datetime) (generated : ObjectId)
    (note_data : NoteModel.t) (user : doc) : doc :=
  <["_id" := VOid generated]>
    {[ "project_name" := VStr (NoteModel.project_name note_data);
       "created_by_user_email" := py_get user "email";
       "created_date" := VStr (strftime_Ymd_HMS now);
       "notes" := VStr (NoteModel.notes note_data) ]}.

(** The notes of a collection that carry an owner's email. *)
Definition notes_of (email : value) (c : list doc) : list doc :=
  filter (λ d, py_get d "created_by_user_email" = email) c.

(** ** A small database

    Two users and one note of the first of them, used to run the
    statements below on concrete requests. *)
Module Scenario.

Definition alice : doc :=
  {[ "email" := VStr "alice@x.com"; "token" := VStr "tok-alice" ]}.

Definition bob : doc :=
  {[ "email" := VStr "bob@x.com"; "token" := VStr "tok-bob" ]}.

Definition oid1 : ObjectId :=
  mkObjectId [x65; xab; x00; x01; x02; x03; x04; x05; x06; x07; x08; xff]%byte.

Definition oid2 : ObjectId :=
  mkObjectId [x65; xab; x00; x01; x02; x03; x04; x05; x06; x07; x09; x00]%byte.

(** [oid1] as a client may write it, and as [str] prints it. *)
Definition id1_upper : string := "65AB000102030405060708FF".
Definition id1 : string := "65ab000102030405060708ff".
Definition id2 : string := "65ab00010203040506070900".

Definition now : datetime := mkDatetime 2026 2 4 14 30 0.

Definition note1 : doc :=
  {[ "_id" := VOid oid1;
     "project_name" := VStr "Site";
     "created_by_user_email" := VStr "alice@x.com";
     "created_date" := VStr "2026-02-04 14:30:00";
     "notes" := VStr "draft" ]}.

Definition empty : db := mkDb [alice; bob] [].
Definition one_note : db := mkDb [alice; bob] [note1].

(** [note1] after its owner has set its [notes] to "final". *)
Definition note1_final : doc := <["notes" := VStr "final"]> note1.

Definition updated : response :=
  mkResponse true "Note updated successfully" None (DataDoc (rendered note1_final)).

Definition after_update : db := mkDb [alice; bob] [note1_final].

(** What deleting [note1] returns to a client that wrote its identifier
    in upper case. *)
Definition deleted : response :=
  mkResponse true "Note deleted successfully" None
    (DataDoc {[ "_id" := VStr id1_upper; "deleted" := VBool true ]}).

(** The note [create_note] stores for [alice] under [oid2], and the
    database after it. *)
Definition note2 : doc :=
  {[ "_id" := VOid oid2;
     "project_name" := VStr "P";
     "created_by_user_email" := VStr "alice@x.com";
     "created_date" := VStr "2026-02-04 14:30:00";
     "notes" := VStr "N" ]}.

Definition two_notes : db := mkDb [alice; bob] [note1; note2].

Definition note_data : NoteModel.t := NoteModel.mk None "P" "" "" "N".

Definition only_notes : NoteUpdateModel.t := NoteUpdateModel.mk None (Some "final").
Definition no_fields : NoteUpdateModel.t := NoteUpdateModel.mk None None.

(** A create payload that follows the schema, with client values for
    the two server-side fields. *)
Definition full_body : doc :=
  {[ "project_name" := VStr "P";
     "created_by_user_email" := VStr "mallory@x.com";
     "created_date" := VStr "1999-01-01 00:00:00";
     "notes" := VStr "N" ]}.

(** A create payload with the two fields [project_name] and [notes]
    only. *)
Definition short_body : doc :=
  {[ "project_name" := VStr "P"; "notes" := VStr "N" ]}.

(** What deleting [note1] and [note2] returns to a client that wrote the
    identifier as [str] prints it. *)
Definition deleted_lower : response :=
  mkResponse true "Note deleted successfully" None
    (DataDoc {[ "_id" := VStr id1; "deleted" := VBool true ]}).

Definition deleted2 : response :=
  mkResponse true "Note deleted successfully" None
    (DataDoc {[ "_id" := VStr id2; "deleted" := VBool true ]}).

(** An update body that gives null for [notes] and nothing else. *)
Definition null_notes : doc := {[ "notes" := VNone ]}.


End Scenario.

(** * Properties *)

(** ** Identifiers: printing and parsing *)

Module HexFacts.
Import Hex.

Lemma length_hexlify (bs : list byte) :
  String.length (hexlify bs) = 2 * length bs.
Proof.
  induction bs as [|b bs IH]; [done|].
  cbn [hexlify String.length length]. rewrite IH. lia.
Qed.

(** Reading back the two digits written for one byte. *)
Lemma fromhex_two_digits (b : byte) (rest : string) :
  fromhex (String (hexdigit (Byte.to_N b / 16))
             (String (hexdigit (Byte.to_N b mod 16)) rest))
  = cons b <$> fromhex rest.
Proof. destruct b; reflexivity. Qed.

Lemma fromhex_hexlify (bs : list byte) : fromhex (hexlify bs) = Some bs.
Proof.
  induction bs as [|b bs IH]; [done|].
  cbn [hexlify]. rewrite fromhex_two_digits, IH. done.
Qed.

Lemma hexlify_nonempty (bs : list byte) : bs ≠ [] → hexlify bs ≠ "".
Proof. destruct bs as [|b bs]; [done|]. intros _. discriminate. Qed.

End HexFacts.

(** An identifier of twelve bytes is read back from its string. *)
Lemma ObjectId_of_str_str (o : ObjectId) :
  length (binary o) = 12 → ObjectId_of_str (ObjectId_str o) = Some o.
Proof.
  intros Hlen. unfold ObjectId_of_str, ObjectId_str.
  rewrite HexFacts.length_hexlify, Hlen, HexFacts.fromhex_hexlify.
  by destruct o.
Qed.

Lemma ObjectId_str_nonempty (o : ObjectId) :
  length (binary o) = 12 → ObjectId_str o ≠ "".
Proof.
  intros Hlen. apply HexFacts.hexlify_nonempty.
  intros E. by rewrite E in Hlen.
Qed.

(** ** Queries *)

Section Queries.
Implicit Types (flt d : doc) (c : list doc) (k : string) (v : value).

Lemma Matches_empty d : Matches ∅ d.
Proof. apply map_Forall_empty. Qed.

Lemma Matches_singleton k v d : Matches {[ k := v ]} d ↔ py_get d k = v.
Proof. exact (map_Forall_singleton (λ k v, py_get d k = v) k v). Qed.

(** A query for a value other than null selects only documents that
    have the field. *)
Lemma Matches_singleton_lookup k v d :
  v ≠ VNone → Matches {[ k := v ]} d ↔ d !! k = Some v.
Proof.
  intros Hv. rewrite Matches_singleton. unfold py_get.
  destruct (d !! k) as [w|]; simpl; naive_solver.
Qed.

Lemma find_all c : Collection.find ∅ c = c.
Proof.
  unfold Collection.find. induction c as [|d c IH]; [done|].
  rewrite filter_cons_True by apply Matches_empty. by rewrite IH.
Qed.

Lemma find_one_Some flt c d :
  Collection.find_one flt c = Some d → d ∈ c ∧ Matches flt d.
Proof.
  unfold Collection.find_one. intros ([i d']&Hf&->)%fmap_Some.
  apply list_find_Some in Hf as (Hi&HP&_). split; [|done].
  by eapply list_elem_of_lookup_2.
Qed.

Lemma find_one_None flt c :
  Collection.find_one flt c = None ↔ ∀ d, d ∈ c → ¬ Matches flt d.
Proof.
  unfold Collection.find_one. rewrite fmap_None, list_find_None.
  apply Forall_forall.
Qed.

(** A document found by a query for a value other than null is never
    the empty dictionary, so the handlers' [if not x] tests only whether
    a document was found. *)
Lemma py_truthy_find_one k v c :
  v ≠ VNone →
  py_truthy (Collection.find_one {[ k := v ]} c) = Collection.find_one {[ k := v ]} c.
Proof.
  intros Hv. destruct (Collection.find_one _ c) as [d|] eqn:E; [|done].
  apply find_one_Some in E as [_ HM].
  apply Matches_singleton_lookup in HM; [|done].
  simpl. case_decide; [|done]. subst d. by rewrite lookup_empty in HM.
Qed.

(** When the values of a field are unique in a collection, a document
    is the one its value finds. Identifiers are unique, so this holds for
    [_id]. *)
Lemma find_one_unique k c d v :
  NoDup ((λ d, py_get d k) <$> c) →
  d ∈ c → py_get d k = v →
  Collection.find_one {[ k := v ]} c = Some d.
Proof.
  intros Hnd [i Hi]%list_elem_of_lookup_1 Hid.
  unfold Collection.find_one.
  destruct (list_find (Matches {[ k := v ]}) c) as [[j d']|] eqn:E.
  - apply list_find_Some in E as (Hj&HM&_). simpl. f_equal.
    apply Matches_singleton in HM.
    assert (i = j) as ->; [|congruence].
    eapply (NoDup_lookup _ _ _ v); [done| |];
      rewrite list_lookup_fmap; [rewrite Hi|rewrite Hj]; simpl; congruence.
  - apply list_find_None in E. rewrite Forall_forall in E.
    exfalso. eapply E; [by eapply list_elem_of_lookup_2|].
    by apply Matches_singleton.
Qed.

End Queries.

(** ** Running the handlers *)

(** Unfolds one step of a handler in the monad. *)
Ltac run :=
  unfold users_find_one, notes_find, notes_find_one, notes_insert_one,
    notes_update_one, notes_delete_one, py_getitem, raise,
    mbind, M_bind, mret, M_ret; cbn beta iota.

Section Preamble.
Implicit Types (s : db) (token : string) (u : doc).

Lemma auth_unknown s token :
  unknown_token s token →
  py_truthy (Collection.find_one {[ "token" := VStr token ]} (user_collection s))
  = None.
Proof.
  intros H. rewrite py_truthy_find_one by done.
  apply find_one_None. intros d Hd HM%Matches_singleton.
  unfold unknown_token in H. rewrite Forall_forall in H. by eapply H.
Qed.

Lemma auth_known s token u :
  authenticated s token u →
  py_truthy (Collection.find_one {[ "token" := VStr token ]} (user_collection s))
  = Some u.
Proof. intros H. by rewrite py_truthy_find_one. Qed.

(** With unique tokens, a user's own token identifies that user. *)
Lemma authenticated_unique_token s token u :
  NoDup ((λ d, py_get d "token") <$> user_collection s) →
  u ∈ user_collection s → py_get u "token" = VStr token →
  authenticated s token u.
Proof. intros. by apply find_one_unique. Qed.

Lemma authenticated_elem s token u :
  authenticated s token u →
  u ∈ user_collection s ∧ u !! "token" = Some (VStr token).
Proof.
  intros [Hin HM]%find_one_Some. split; [done|].
  by apply Matches_singleton_lookup in HM.
Qed.

End Preamble.

Section Rendering.

Lemma stringify_id_has_id (d : doc) (s : db) :
  has_id d → stringify_id d s = (inr (rendered d), s).
Proof.
  intros [v Hv]. unfold stringify_id, rendered, py_get. run.
  by rewrite Hv.
Qed.

Lemma stringify_ids_has_id (l : list doc) (s : db) :
  Forall has_id l → stringify_ids l s = (inr (rendered <$> l), s).
Proof.
  induction 1 as [|d l Hd Hl IH]; [done|].
  cbn [stringify_ids]. run.
  by rewrite stringify_id_has_id, IH.
Qed.

Lemma rendered_lookup_ne (d : doc) (k : string) :
  k ≠ "_id" → rendered d !! k = d !! k.
Proof. intros Hk. unfold rendered. by rewrite lookup_insert_ne. Qed.

Lemma rendered_id (d : doc) :
  rendered d !! "_id" = Some (VStr (py_str (py_get d "_id"))).
Proof. unfold rendered. by rewrite lookup_insert_eq. Qed.

End Rendering.

(** ** The fields an update sets *)

Section UpdateFields.
Implicit Types (update_data : NoteUpdateModel.t) (k : string) (d : doc).

Lemma update_fields_project_name update_data :
  update_fields update_data !! "project_name"
  = VStr <$> NoteUpdateModel.project_name update_data.
Proof.
  unfold update_fields.
  destruct update_data as [[p|] [n|]]; simpl;
    by repeat first [rewrite lookup_insert_ne by done
                    |rewrite lookup_insert_eq|rewrite lookup_empty].
Qed.

Lemma update_fields_notes update_data :
  update_fields update_data !! "notes"
  = VStr <$> NoteUpdateModel.notes update_data.
Proof.
  unfold update_fields.
  destruct update_data as [[p|] [n|]]; simpl;
    by repeat first [rewrite lookup_insert_ne by done
                    |rewrite lookup_insert_eq|rewrite lookup_empty].
Qed.

Lemma update_fields_other update_data k :
  k ≠ "project_name" → k ≠ "notes" → update_fields update_data !! k = None.
Proof.
  intros ??. unfold update_fields.
  destruct update_data as [[p|] [n|]]; simpl;
    by repeat first [rewrite lookup_insert_ne by done|rewrite lookup_empty].
Qed.

(** The dictionary is empty exactly when both fields are [None]. *)
Lemma update_fields_empty update_data :
  update_fields update_data = ∅ ↔
  NoteUpdateModel.project_name update_data = None ∧
  NoteUpdateModel.notes update_data = None.
Proof.
  split.
  - intros E. split.
    + pose proof (update_fields_project_name update_data) as H.
      rewrite E, lookup_empty in H. by destruct (NoteUpdateModel.project_name _).
    + pose proof (update_fields_notes update_data) as H.
      rewrite E, lookup_empty in H. by destruct (NoteUpdateModel.notes _).
  - destruct update_data as [p n]. simpl. by intros [-> ->].
Qed.

(** [$set] leaves the fields it does not name as they were. *)
Lemma set_fields_other update_data d k :
  k ≠ "project_name" → k ≠ "notes" →
  (update_fields update_data ∪ d) !! k = d !! k.
Proof. intros ??. apply lookup_union_r. by apply update_fields_other. Qed.

Lemma set_fields_get_other update_data d k :
  k ≠ "project_name" → k ≠ "notes" →
  py_get (update_fields update_data ∪ d) k = py_get d k.
Proof. intros ??. unfold py_get. by rewrite set_fields_other. Qed.

Lemma set_fields_project_name update_data d :
  (update_fields update_data ∪ d) !! "project_name"
  = match NoteUpdateModel.project_name update_data with
    | Some v => Some (VStr v)
    | None => d !! "project_name"
    end.
Proof.
  rewrite lookup_union, update_fields_project_name.
  destruct (NoteUpdateModel.project_name _); simpl;
    [by destruct (d !! "project_name")|by rewrite (left_id_L None _)].
Qed.

Lemma set_fields_notes update_data d :
  (update_fields update_data ∪ d) !! "notes"
  = match NoteUpdateModel.notes update_data with
    | Some v => Some (VStr v)
    | None => d !! "notes"
    end.
Proof.
  rewrite lookup_union, update_fields_notes.
  destruct (NoteUpdateModel.notes _); simpl;
    [by destruct (d !! "notes")|by rewrite (left_id_L None _)].
Qed.

End UpdateFields.

(** ** Writing to a collection *)

Section Writes.
Context (P : doc → Prop) `{!∀ d, Decision (P d)}.
Implicit Types (c : list doc) (d : doc) (i : nat).

(** Replacing the first selected document by one that is selected too
    keeps it the first selected document. *)
Lemma list_find_replace c i d d' :
  list_find P c = Some (i, d) → P d' →
  list_find P (<[i := d']> c) = Some (i, d').
Proof.
  intros (Hi&_&Hleast)%list_find_Some HP. apply list_find_Some.
  split_and!; [|done|].
  - apply list_lookup_insert_eq. by eapply lookup_lt_Some.
  - intros j y Hj Hlt. rewrite list_lookup_insert_ne in Hj by lia.
    by eapply Hleast.
Qed.

End Writes.

(** ** What each handler computes *)

Section Handlers.
Implicit Types (s : db) (token note_id : string) (user note : doc).

(** [update_note], check by check. *)
Lemma update_note_eq note_id update_data token s :
  update_note note_id update_data token s =
  match Collection.find_one {[ "token" := VStr token ]} (user_collection s) with
  | None => (inl (HTTPException 401 "Invalid or expired token"), s)
  | Some user =>
      match ObjectId_of_str note_id with
      | None => (inl (HTTPException 400 "Invalid note ID format"), s)
      | Some object_id =>
          match list_find (Matches {[ "_id" := VOid object_id ]})
                  (notes_collection s) with
          | None => (inl (HTTPException 404 "Note not found"), s)
          | Some (i, note) =>
              if decide (py_get note "created_by_user_email" ≠ py_get user "email")
              then (inl (HTTPException 403 "You can only update your own notes"), s)
              else if decide (update_fields update_data = ∅)
              then (inl (HTTPException 400 "No fields to update"), s)
              else
                let note' := update_fields update_data ∪ note in
                (inr (mkResponse true "Note updated successfully" None
                        (DataDoc (rendered note'))),
                 mkDb (user_collection s) (<[i := note']> (notes_collection s)))
          end
      end
  end.
Proof.
  unfold update_note. run.
  rewrite py_truthy_find_one by done.
  destruct (Collection.find_one _ (user_collection s)) as [user|]; [|done].
  destruct (ObjectId_of_str note_id) as [object_id|]; [|done].
  rewrite py_truthy_find_one by done. unfold Collection.find_one.
  destruct (list_find _ (notes_collection s)) as [[i note]|] eqn:Hfind; [|done].
  cbn [fmap option_fmap option_map snd].
  case_decide; [done|]. case_decide; [done|].
  cbn [notes_collection user_collection].
  unfold Collection.update_one. rewrite Hfind.
  assert (Matches {[ "_id" := VOid object_id ]} (update_fields update_data ∪ note))
    as HM.
  { apply list_find_Some in Hfind as (_&HM&_).
    apply Matches_singleton. apply Matches_singleton in HM.
    by rewrite set_fields_get_other. }
  rewrite (list_find_replace _ _ _ _ _ Hfind HM).
  cbn [fmap option_fmap option_map snd].
  rewrite stringify_id_has_id; [done|].
  apply Matches_singleton_lookup in HM; [|done]. by eexists.
Qed.

(** [delete_note], check by check. *)
Lemma delete_note_eq note_id token s :
  delete_note note_id token s =
  match Collection.find_one {[ "token" := VStr token ]} (user_collection s) with
  | None => (inl (HTTPException 401 "Invalid or expired token"), s)
  | Some user =>
      match ObjectId_of_str note_id with
      | None => (inl (HTTPException 400 "Invalid note ID format"), s)
      | Some object_id =>
          match list_find (Matches {[ "_id" := VOid object_id ]})
                  (notes_collection s) with
          | None => (inl (HTTPException 404 "Note not found"), s)
          | Some (i, note) =>
              if decide (py_get note "created_by_user_email" ≠ py_get user "email")
              then (inl (HTTPException 403 "You can only delete your own notes"), s)
              else
                (inr (mkResponse true "Note deleted successfully" None
                        (DataDoc {[ "_id" := VStr note_id;
                                    "deleted" := VBool true ]})),
                 mkDb (user_collection s) (delete i (notes_collection s)))
          end
      end
  end.
Proof.
  unfold delete_note. run.
  rewrite py_truthy_find_one by done.
  destruct (Collection.find_one _ (user_collection s)) as [user|]; [|done].
  destruct (ObjectId_of_str note_id) as [object_id|]; [|done].
  rewrite py_truthy_find_one by done. unfold Collection.find_one.
  destruct (list_find _ (notes_collection s)) as [[i note]|] eqn:Hfind; [|done].
  cbn [fmap option_fmap option_map snd].
  case_decide; [done|].
  unfold Collection.delete_one. by rewrite Hfind.
Qed.

End Handlers.

Section MoreHandlers.
Implicit Types (s : db) (token : string) (user note : doc).

Lemma stored_note_lookup_id now generated note_data user :
  stored_note now generated note_data user !! "_id" = Some (VOid generated).
Proof. unfold stored_note. by rewrite lookup_insert_eq. Qed.

Lemma stored_note_get_id now generated note_data user :
  py_get (stored_note now generated note_data user) "_id" = VOid generated.
Proof. unfold py_get. by rewrite stored_note_lookup_id. Qed.

(** [create_note], step by step. *)
Lemma create_note_eq now generated note_data token s :
  create_note now generated note_data token s =
  match Collection.find_one {[ "token" := VStr token ]} (user_collection s) with
  | None => (inl (HTTPException 401 "Invalid or expired token"), s)
  | Some user =>
      let note := stored_note now generated note_data user in
      if decide (VOid generated ∈ (λ d, py_get d "_id") <$> notes_collection s)
      then (inl DuplicateKeyError, s)
      else
        (inr (mkResponse true "Note created successfully" None
                (DataDoc (rendered note))),
         mkDb (user_collection s) (notes_collection s ++ [note]))
  end.
Proof.
  unfold create_note. run.
  rewrite py_truthy_find_one by done.
  destruct (Collection.find_one _ (user_collection s)) as [user|]; [|done].
  unfold Collection.insert_one.
  rewrite !lookup_insert_ne, lookup_singleton_ne by done.
  fold (stored_note now generated note_data user).
  rewrite stored_note_get_id. cbn zeta.
  by case_decide.
Qed.

(** [get_all_notes] and [get_my_notes], when every stored note has its
    [_id]. *)
Lemma get_all_notes_eq token s :
  Forall has_id (notes_collection s) →
  get_all_notes token s =
  match Collection.find_one {[ "token" := VStr token ]} (user_collection s) with
  | None => (inl (HTTPException 401 "Invalid or expired token"), s)
  | Some user =>
      let all_notes := rendered <$> notes_collection s in
      (inr (mkResponse true "All notes retrieved successfully"
              (Some (length all_notes)) (DataList all_notes)), s)
  end.
Proof.
  intros Hid. unfold get_all_notes. run.
  rewrite py_truthy_find_one by done.
  destruct (Collection.find_one _ (user_collection s)) as [user|]; [|done].
  by rewrite find_all, stringify_ids_has_id.
Qed.

Lemma find_by_owner (email : value) (c : list doc) :
  Collection.find {[ "created_by_user_email" := email ]} c = notes_of email c.
Proof.
  unfold Collection.find, notes_of. apply list_filter_iff.
  intros d. apply Matches_singleton.
Qed.

Lemma get_my_notes_eq token s :
  Forall has_id (notes_collection s) →
  get_my_notes token s =
  match Collection.find_one {[ "token" := VStr token ]} (user_collection s) with
  | None => (inl (HTTPException 401 "Invalid or expired token"), s)
  | Some user =>
      let user_notes :=
        rendered <$> notes_of (py_get user "email") (notes_collection s) in
      (inr (mkResponse true "Your notes retrieved successfully"
              (Some (length user_notes)) (DataList user_notes)), s)
  end.
Proof.
  intros Hid. unfold get_my_notes. run.
  rewrite py_truthy_find_one by done.
  destruct (Collection.find_one _ (user_collection s)) as [user|]; [|done].
  rewrite find_by_owner, stringify_ids_has_id; [done|].
  rewrite Forall_forall in *. intros d [_ Hd]%list_elem_of_filter. auto.
Qed.

End MoreHandlers.

(** ** Ownership *)

(** The first document with a given [_id], as [list_find] reports it. *)
Lemma note_by_id_list_find (s : db) (object_id : ObjectId) (note : doc) :
  note_by_id s object_id = Some note →
  ∃ i, list_find (Matches {[ "_id" := VOid object_id ]}) (notes_collection s)
       = Some (i, note).
Proof.
  unfold note_by_id, Collection.find_one.
  intros ([i d]&Hf&->)%fmap_Some. by exists i.
Qed.

Lemma wf_note_by_id (s : db) (N : doc) :
  wf_notes (notes_collection s) → N ∈ notes_collection s →
  ∃ o, py_get N "_id" = VOid o ∧ length (binary o) = 12 ∧
       note_by_id s o = Some N.
Proof.
  intros [Hids Hnd] HN.
  rewrite Forall_forall in Hids. specialize (Hids N HN).
  destruct (py_get N "_id") as [| | |o] eqn:E; try done.
  exists o. split_and!; [done..|]. by apply find_one_unique.
Qed.

(** C1. A stored note [N] and an authenticated user [U] whose email is
    not [N]'s [created_by_user_email]: updating [N]'s id fails with 403
    "You can only update your own notes", deleting it fails with 403
    "You can only delete your own notes", and the collections are what
    they were, so [N] is unchanged. *)
Theorem ownership_enforced (s : db) (N U : doc) (token : string)
    (update_data : NoteUpdateModel.t) :
  wf_notes (notes_collection s) →
  N ∈ notes_collection s →
  authenticated s token U →
  py_get U "email" ≠ py_get N "created_by_user_email" →
  update_note (py_str (py_get N "_id")) update_data token s
  = (inl (HTTPException 403 "You can only update your own notes"), s) ∧
  delete_note (py_str (py_get N "_id")) token s
  = (inl (HTTPException 403 "You can only delete your own notes"), s).
Proof.
  intros Hwf HN Hauth Hne.
  destruct (wf_note_by_id s N Hwf HN) as (o&Hid&Hlen&Hfind).
  apply note_by_id_list_find in Hfind as [i Hfind].
  rewrite Hid. cbn [py_str].
  rewrite update_note_eq, delete_note_eq, Hauth, ObjectId_of_str_str, Hfind by done.
  by rewrite !decide_True by congruence.
Qed.

Lemma ownership_enforced_witness :
  wf_notes (notes_collection Scenario.one_note) ∧
  Scenario.note1 ∈ notes_collection Scenario.one_note ∧
  authenticated Scenario.one_note "tok-bob" Scenario.bob ∧
  py_get Scenario.bob "email" ≠ py_get Scenario.note1 "created_by_user_email" ∧
  update_note Scenario.id1 Scenario.only_notes "tok-bob" Scenario.one_note
  = (inl (HTTPException 403 "You can only update your own notes"), Scenario.one_note) ∧
  delete_note Scenario.id1 "tok-bob" Scenario.one_note
  = (inl (HTTPException 403 "You can only delete your own notes"), Scenario.one_note).
Proof.
  assert (wf_notes (notes_collection Scenario.one_note)) as Hwf.
  { apply (bool_decide_unpack _). vm_compute. exact I. }
  assert (Scenario.note1 ∈ notes_collection Scenario.one_note) as HN.
  { apply list_elem_of_here. }
  assert (authenticated Scenario.one_note "tok-bob" Scenario.bob) as Hauth.
  { reflexivity. }
  assert (py_get Scenario.bob "email"
          ≠ py_get Scenario.note1 "created_by_user_email") as Hne.
  { vm_compute. discriminate. }
  split_and!; [done..| |];
    apply (ownership_enforced Scenario.one_note Scenario.note1 Scenario.bob
             "tok-bob" Scenario.only_notes Hwf HN Hauth Hne).
Defined.

(** ** The frame of an update *)

(** C2. A successful update replaces one stored note [old] by [new] and
    touches nothing else; [new] has [old]'s [created_by_user_email],
    [created_date] and [_id], as every field other than [project_name]
    and [notes]; each of these two takes the payload's value when the
    payload has one and keeps its own otherwise. The response carries
    [new]. *)
Theorem update_changes_only_named_fields (s s' : db) (note_id token : string)
    (update_data : NoteUpdateModel.t) (r : response) :
  update_note note_id update_data token s = (inr r, s') →
  ∃ (object_id : ObjectId) (i : nat) (old new : doc),
    ObjectId_of_str note_id = Some object_id ∧
    note_by_id s object_id = Some old ∧
    notes_collection s !! i = Some old ∧
    s' = mkDb (user_collection s) (<[i := new]> (notes_collection s)) ∧
    note_by_id s' object_id = Some new ∧
    data r = DataDoc (rendered new) ∧
    new !! "created_by_user_email" = old !! "created_by_user_email" ∧
    new !! "created_date" = old !! "created_date" ∧
    new !! "_id" = old !! "_id" ∧
    (∀ k, k ≠ "project_name" → k ≠ "notes" → new !! k = old !! k) ∧
    new !! "project_name"
    = match NoteUpdateModel.project_name update_data with
      | Some v => Some (VStr v)
      | None => old !! "project_name"
      end ∧
    new !! "notes"
    = match NoteUpdateModel.notes update_data with
      | Some v => Some (VStr v)
      | None => old !! "notes"
      end.
Proof.
  rewrite update_note_eq. intros Hrun.
  destruct (Collection.find_one _ (user_collection s)) as [user|]; [|done].
  destruct (ObjectId_of_str note_id) as [object_id|]; [|done].
  destruct (list_find _ (notes_collection s)) as [[i old]|] eqn:Hfind; [|done].
  case_decide; [done|]. case_decide; [done|].
  cbn zeta in Hrun. injection Hrun as <- <-.
  pose proof Hfind as (Hi&HM&_)%list_find_Some.
  assert (Matches {[ "_id" := VOid object_id ]} (update_fields update_data ∪ old))
    as HM'.
  { apply Matches_singleton. apply Matches_singleton in HM.
    by rewrite set_fields_get_other. }
  exists object_id, i, old, (update_fields update_data ∪ old).
  split_and!; try done.
  - unfold note_by_id, Collection.find_one. by rewrite Hfind.
  - unfold note_by_id, Collection.find_one. cbn [notes_collection].
    by rewrite (list_find_replace _ _ _ _ _ Hfind HM').
  - by apply set_fields_other.
  - by apply set_fields_other.
  - by apply set_fields_other.
  - intros k ??. by apply set_fields_other.
  - apply set_fields_project_name.
  - apply set_fields_notes.
Qed.

Lemma update_changes_only_named_fields_witness :
  update_note Scenario.id1 Scenario.only_notes "tok-alice" Scenario.one_note
  = (inr Scenario.updated, Scenario.after_update) ∧
  ∃ (object_id : ObjectId) (i : nat) (old new : doc),
    ObjectId_of_str Scenario.id1 = Some object_id ∧
    note_by_id Scenario.one_note object_id = Some old ∧
    notes_collection Scenario.one_note !! i = Some old ∧
    Scenario.after_update = mkDb (user_collection Scenario.one_note)
           (<[i := new]> (notes_collection Scenario.one_note)) ∧
    note_by_id Scenario.after_update object_id = Some new ∧
    data Scenario.updated = DataDoc (rendered new) ∧
    new !! "created_by_user_email" = old !! "created_by_user_email" ∧
    new !! "created_date" = old !! "created_date" ∧
    new !! "_id" = old !! "_id" ∧
    (∀ k, k ≠ "project_name" → k ≠ "notes" → new !! k = old !! k) ∧
    new !! "project_name"
    = match NoteUpdateModel.project_name Scenario.only_notes with
      | Some v => Some (VStr v)
      | None => old !! "project_name"
      end ∧
    new !! "notes"
    = match NoteUpdateModel.notes Scenario.only_notes with
      | Some v => Some (VStr v)
      | None => old !! "notes"
      end.
Proof.
  assert (update_note Scenario.id1 Scenario.only_notes "tok-alice"
            Scenario.one_note = (inr Scenario.updated, Scenario.after_update))
    as Hrun.
  { vm_compute. reflexivity. }
  split; [exact Hrun|].
  exact (update_changes_only_named_fields _ _ _ _ _ _ Hrun).
Defined.

(** ** Unknown credentials *)

(** C3. When no user record has the presented credential as its token,
    each of the five handlers ends with 401 "Invalid or expired token"
    and leaves the collections as they were. *)
Theorem unknown_token_is_unauthorized (s : db) (token note_id : string)
    (now : datetime) (generated : ObjectId)
    (note_data : NoteModel.t) (update_data : NoteUpdateModel.t) :
  unknown_token s token →
  create_note now generated note_data token s = unauthorized s ∧
  get_all_notes token s = unauthorized s ∧
  get_my_notes token s = unauthorized s ∧
  update_note note_id update_data token s = unauthorized s ∧
  delete_note note_id token s = unauthorized s.
Proof.
  intros Hunk%auth_unknown. rewrite py_truthy_find_one in Hunk by done.
  split_and!.
  - by rewrite create_note_eq, Hunk.
  - unfold get_all_notes. run. by rewrite py_truthy_find_one, Hunk.
  - unfold get_my_notes. run. by rewrite py_truthy_find_one, Hunk.
  - by rewrite update_note_eq, Hunk.
  - by rewrite delete_note_eq, Hunk.
Qed.

Lemma unknown_token_is_unauthorized_witness :
  unknown_token Scenario.one_note "tok-eve" ∧
  create_note Scenario.now Scenario.oid2 Scenario.note_data "tok-eve"
    Scenario.one_note
  = unauthorized Scenario.one_note ∧
  get_all_notes "tok-eve" Scenario.one_note = unauthorized Scenario.one_note ∧
  get_my_notes "tok-eve" Scenario.one_note = unauthorized Scenario.one_note ∧
  update_note Scenario.id1 Scenario.only_notes "tok-eve" Scenario.one_note
  = unauthorized Scenario.one_note ∧
  delete_note Scenario.id1 "tok-eve" Scenario.one_note
  = unauthorized Scenario.one_note.
Proof.
  assert (unknown_token Scenario.one_note "tok-eve") as Hunk.
  { apply (bool_decide_unpack _). vm_compute. exact I. }
  split; [exact Hunk|].
  exact (unknown_token_is_unauthorized Scenario.one_note "tok-eve"
           Scenario.id1 Scenario.now Scenario.oid2 Scenario.note_data
           Scenario.only_notes Hunk).
Defined.

(** C9. A request for update or delete that carries an unknown credential
    and an identifier that does not parse ends with 401 "Invalid or
    expired token": the credential is checked before the identifier. *)
Theorem unknown_token_before_bad_id (s : db) (token note_id : string)
    (update_data : NoteUpdateModel.t) :
  unknown_token s token →
  ObjectId_of_str note_id = None →
  update_note note_id update_data token s
  = (inl (HTTPException 401 "Invalid or expired token"), s) ∧
  delete_note note_id token s
  = (inl (HTTPException 401 "Invalid or expired token"), s).
Proof.
  intros Hunk%auth_unknown _. rewrite py_truthy_find_one in Hunk by done.
  by rewrite update_note_eq, delete_note_eq, Hunk.
Qed.

Lemma unknown_token_before_bad_id_witness :
  unknown_token Scenario.one_note "tok-eve" ∧
  ObjectId_of_str "not-an-id" = None ∧
  update_note "not-an-id" Scenario.only_notes "tok-eve" Scenario.one_note
  = (inl (HTTPException 401 "Invalid or expired token"), Scenario.one_note) ∧
  delete_note "not-an-id" "tok-eve" Scenario.one_note
  = (inl (HTTPException 401 "Invalid or expired token"), Scenario.one_note).
Proof.
  assert (unknown_token Scenario.one_note "tok-eve") as Hunk.
  { apply (bool_decide_unpack _). vm_compute. exact I. }
  assert (ObjectId_of_str "not-an-id" = None) as Hbad by reflexivity.
  split_and!; [done..| |];
    apply (unknown_token_before_bad_id Scenario.one_note "tok-eve" "not-an-id"
             Scenario.only_notes Hunk Hbad).
Defined.

(** ** The order of the checks *)

(** C5. For a request of an authenticated user the checks of update and
    delete come in this order, each one ending the request with the
    collections as they were: an identifier that does not parse gives 400
    "Invalid note ID format"; otherwise an identifier under which no note
    is stored gives 404 "Note not found"; otherwise a note of another
    owner gives 403; and, for update only, otherwise a payload with
    neither [project_name] nor [notes] gives 400 "No fields to update". *)
Theorem error_precedence (s : db) (token note_id : string) (user : doc)
    (update_data : NoteUpdateModel.t) :
  authenticated s token user →
  (ObjectId_of_str note_id = None →
     update_note note_id update_data token s
     = (inl (HTTPException 400 "Invalid note ID format"), s) ∧
     delete_note note_id token s
     = (inl (HTTPException 400 "Invalid note ID format"), s)) ∧
  (∀ object_id,
     ObjectId_of_str note_id = Some object_id →
     note_by_id s object_id = None →
     update_note note_id update_data token s
     = (inl (HTTPException 404 "Note not found"), s) ∧
     delete_note note_id token s
     = (inl (HTTPException 404 "Note not found"), s)) ∧
  (∀ object_id note,
     ObjectId_of_str note_id = Some object_id →
     note_by_id s object_id = Some note →
     py_get note "created_by_user_email" ≠ py_get user "email" →
     update_note note_id update_data token s
     = (inl (HTTPException 403 "You can only update your own notes"), s) ∧
     delete_note note_id token s
     = (inl (HTTPException 403 "You can only delete your own notes"), s)) ∧
  (∀ object_id note,
     ObjectId_of_str note_id = Some object_id →
     note_by_id s object_id = Some note →
     py_get note "created_by_user_email" = py_get user "email" →
     NoteUpdateModel.project_name update_data = None →
     NoteUpdateModel.notes update_data = None →
     update_note note_id update_data token s
     = (inl (HTTPException 400 "No fields to update"), s)).
Proof.
  intros Hauth.
  pose proof (update_note_eq note_id update_data token s) as HU.
  pose proof (delete_note_eq note_id token s) as HD.
  unfold authenticated in Hauth. rewrite Hauth in HU, HD.
  split_and!.
  - intros Hbad. rewrite Hbad in HU, HD. by rewrite HU, HD.
  - intros object_id Hid Hnone. rewrite Hid in HU, HD.
    unfold note_by_id, Collection.find_one in Hnone.
    apply fmap_None in Hnone. rewrite Hnone in HU, HD. by rewrite HU, HD.
  - intros object_id note Hid [i Hfind]%note_by_id_list_find Hne.
    rewrite Hid, Hfind, decide_True in HU, HD by done. by rewrite HU, HD.
  - intros object_id note Hid [i Hfind]%note_by_id_list_find Hown Hp Hn.
    rewrite Hid, Hfind, decide_False in HU by (by intros ?).
    rewrite decide_True in HU; [done|]. by apply update_fields_empty.
Qed.

Lemma error_precedence_witness :
  authenticated Scenario.one_note "tok-alice" Scenario.alice ∧
  authenticated Scenario.one_note "tok-bob" Scenario.bob ∧
  update_note "not-an-id" Scenario.no_fields "tok-bob" Scenario.one_note
  = (inl (HTTPException 400 "Invalid note ID format"), Scenario.one_note) ∧
  delete_note "not-an-id" "tok-bob" Scenario.one_note
  = (inl (HTTPException 400 "Invalid note ID format"), Scenario.one_note) ∧
  update_note Scenario.id2 Scenario.no_fields "tok-bob" Scenario.one_note
  = (inl (HTTPException 404 "Note not found"), Scenario.one_note) ∧
  delete_note Scenario.id2 "tok-bob" Scenario.one_note
  = (inl (HTTPException 404 "Note not found"), Scenario.one_note) ∧
  update_note Scenario.id1 Scenario.no_fields "tok-bob" Scenario.one_note
  = (inl (HTTPException 403 "You can only update your own notes"),
     Scenario.one_note) ∧
  delete_note Scenario.id1 "tok-bob" Scenario.one_note
  = (inl (HTTPException 403 "You can only delete your own notes"),
     Scenario.one_note) ∧
  update_note Scenario.id1 Scenario.no_fields "tok-alice" Scenario.one_note
  = (inl (HTTPException 400 "No fields to update"), Scenario.one_note).
Proof.
  assert (authenticated Scenario.one_note "tok-alice" Scenario.alice) as Ha
    by reflexivity.
  assert (authenticated Scenario.one_note "tok-bob" Scenario.bob) as Hb
    by reflexivity.
  split; [exact Ha|]. split; [exact Hb|].
  destruct (error_precedence Scenario.one_note "tok-bob" "not-an-id"
              Scenario.bob Scenario.no_fields Hb) as ([H1 H2]&_).
  { reflexivity. }
  destruct (error_precedence Scenario.one_note "tok-bob" Scenario.id2
              Scenario.bob Scenario.no_fields Hb) as (_&H34&_).
  destruct (H34 Scenario.oid2) as [H3 H4]; [reflexivity..|].
  destruct (error_precedence Scenario.one_note "tok-bob" Scenario.id1
              Scenario.bob Scenario.no_fields Hb) as (_&_&H56&_).
  destruct (H56 Scenario.oid1 Scenario.note1) as [H5 H6];
    [reflexivity|reflexivity|vm_compute; discriminate|].
  destruct (error_precedence Scenario.one_note "tok-alice" Scenario.id1
              Scenario.alice Scenario.no_fields Ha) as (_&_&_&H7).
  specialize (H7 Scenario.oid1 Scenario.note1).
  split_and!; [done..|].
  apply H7; reflexivity.
Defined.

(** ** Listing *)

(** C6. For an authenticated caller, [get_all_notes] returns every note of
    the collection and [get_my_notes] returns the notes whose
    [created_by_user_email] is the caller's email, each note with its
    [_id] as a string and in the order of the collection; [count] is the
    length of [data]; the collections are as they were. *)
Theorem list_all_and_list_mine (s : db) (token : string) (user : doc) :
  authenticated s token user →
  Forall has_id (notes_collection s) →
  ∃ all_notes user_notes,
    all_notes = rendered <$> notes_collection s ∧
    user_notes
    = rendered <$> filter (λ d, py_get d "created_by_user_email" = py_get user "email")
                     (notes_collection s) ∧
    get_all_notes token s
    = (inr (mkResponse true "All notes retrieved successfully"
              (Some (length all_notes)) (DataList all_notes)), s) ∧
    get_my_notes token s
    = (inr (mkResponse true "Your notes retrieved successfully"
              (Some (length user_notes)) (DataList user_notes)), s).
Proof.
  intros Hauth Hid. eexists _, _. split_and!; [done..| |].
  - by rewrite get_all_notes_eq, Hauth.
  - by rewrite get_my_notes_eq, Hauth.
Qed.

Lemma list_all_and_list_mine_witness :
  authenticated Scenario.two_notes "tok-bob" Scenario.bob ∧
  Forall has_id (notes_collection Scenario.two_notes) ∧
  ∃ all_notes user_notes,
    all_notes = rendered <$> notes_collection Scenario.two_notes ∧
    user_notes
    = rendered <$> filter (λ d, py_get d "created_by_user_email"
                                = py_get Scenario.bob "email")
                     (notes_collection Scenario.two_notes) ∧
    get_all_notes "tok-bob" Scenario.two_notes
    = (inr (mkResponse true "All notes retrieved successfully"
              (Some (length all_notes)) (DataList all_notes)),
       Scenario.two_notes) ∧
    get_my_notes "tok-bob" Scenario.two_notes
    = (inr (mkResponse true "Your notes retrieved successfully"
              (Some (length user_notes)) (DataList user_notes)),
       Scenario.two_notes).
Proof.
  assert (authenticated Scenario.two_notes "tok-bob" Scenario.bob) as Hauth
    by reflexivity.
  assert (Forall has_id (notes_collection Scenario.two_notes)) as Hid.
  { apply (bool_decide_unpack _). vm_compute. exact I. }
  split; [exact Hauth|]. split; [exact Hid|].
  exact (list_all_and_list_mine Scenario.two_notes "tok-bob" Scenario.bob
           Hauth Hid).
Defined.

(** On the small database: every user sees both notes, [bob] has none of
    his own and [alice] has both. *)
Example list_scenario :
  fst (get_all_notes "tok-bob" Scenario.two_notes)
  = inr (mkResponse true "All notes retrieved successfully" (Some 2)
           (DataList [rendered Scenario.note1; rendered Scenario.note2])) ∧
  fst (get_my_notes "tok-bob" Scenario.two_notes)
  = inr (mkResponse true "Your notes retrieved successfully" (Some 0)
           (DataList [])) ∧
  fst (get_my_notes "tok-alice" Scenario.two_notes)
  = inr (mkResponse true "Your notes retrieved successfully" (Some 2)
           (DataList [rendered Scenario.note1; rendered Scenario.note2])).
Proof. split_and!; vm_compute; reflexivity. Qed.

(** ** Deleting *)

(** C7. A successful delete returns [success] true, the message "Note
    deleted successfully" and as [data] the dictionary of [_id], which is
    the [note_id] string of the request itself, and [deleted], which is
    true. *)
Theorem delete_echoes_note_id (s s' : db) (note_id token : string) (r : response) :
  delete_note note_id token s = (inr r, s') →
  r = mkResponse true "Note deleted successfully" None
        (DataDoc {[ "_id" := VStr note_id; "deleted" := VBool true ]}).
Proof.
  rewrite delete_note_eq. intros Hrun.
  destruct (Collection.find_one _ (user_collection s)) as [user|]; [|done].
  destruct (ObjectId_of_str note_id) as [object_id|]; [|done].
  destruct (list_find _ (notes_collection s)) as [[i note]|]; [|done].
  case_decide; [done|]. by injection Hrun as <- <-.
Qed.

(** The client wrote the identifier in upper case; [str] of the stored
    identifier is in lower case; the response has the client's string. *)
Lemma delete_echoes_note_id_witness :
  delete_note Scenario.id1_upper "tok-alice" Scenario.one_note
  = (inr Scenario.deleted, Scenario.empty) ∧
  Scenario.deleted
  = mkResponse true "Note deleted successfully" None
      (DataDoc {[ "_id" := VStr Scenario.id1_upper; "deleted" := VBool true ]}).
Proof.
  assert (delete_note Scenario.id1_upper "tok-alice" Scenario.one_note
          = (inr Scenario.deleted, Scenario.empty)) as Hrun.
  { vm_compute. reflexivity. }
  split; [exact Hrun|].
  exact (delete_echoes_note_id _ _ _ _ _ Hrun).
Defined.

(** An update by the owner with at least one field succeeds and stores
    the payload's fields over the note's. *)
Lemma update_note_by_owner (s : db) (token note_id : string) (user note : doc)
    (object_id : ObjectId) (update_data : NoteUpdateModel.t) :
  authenticated s token user →
  ObjectId_of_str note_id = Some object_id →
  note_by_id s object_id = Some note →
  py_get note "created_by_user_email" = py_get user "email" →
  update_fields update_data ≠ ∅ →
  ∃ i, notes_collection s !! i = Some note ∧
    update_note note_id update_data token s
    = (inr (mkResponse true "Note updated successfully" None
              (DataDoc (rendered (update_fields update_data ∪ note)))),
       mkDb (user_collection s)
         (<[i := update_fields update_data ∪ note]> (notes_collection s))).
Proof.
  intros Hauth Hid [i Hfind]%note_by_id_list_find Hown Hfields.
  exists i. split; [by apply list_find_Some in Hfind as (?&_)|].
  rewrite update_note_eq, Hauth, Hid, Hfind.
  by rewrite decide_False, decide_False by (done || by intros ?).
Qed.

(** A delete by the owner succeeds and removes the note. *)
Lemma delete_note_by_owner (s : db) (token note_id : string) (user note : doc)
    (object_id : ObjectId) :
  authenticated s token user →
  ObjectId_of_str note_id = Some object_id →
  note_by_id s object_id = Some note →
  py_get note "created_by_user_email" = py_get user "email" →
  ∃ i, notes_collection s !! i = Some note ∧
    delete_note note_id token s
    = (inr (mkResponse true "Note deleted successfully" None
              (DataDoc {[ "_id" := VStr note_id; "deleted" := VBool true ]})),
       mkDb (user_collection s) (delete i (notes_collection s))).
Proof.
  intros Hauth Hid [i Hfind]%note_by_id_list_find Hown.
  exists i. split; [by apply list_find_Some in Hfind as (?&_)|].
  rewrite delete_note_eq, Hauth, Hid, Hfind.
  by rewrite decide_False by (by intros ?).
Qed.

(** ** Creating *)

Section StoredNote.
Context (now : datetime) (generated : ObjectId) (note_data : NoteModel.t)
  (user : doc).

Lemma stored_note_project_name :
  stored_note now generated note_data user !! "project_name" = Some (VStr (NoteModel.project_name note_data)).
Proof.
  unfold stored_note.
  by rewrite lookup_insert_ne, lookup_insert_eq.
Qed.

Lemma stored_note_created_by :
  stored_note now generated note_data user !! "created_by_user_email" = Some (py_get user "email").
Proof.
  unfold stored_note.
  by rewrite !lookup_insert_ne, lookup_insert_eq by done.
Qed.

Lemma stored_note_created_date :
  stored_note now generated note_data user !! "created_date" = Some (VStr (strftime_Ymd_HMS now)).
Proof.
  unfold stored_note.
  by rewrite !lookup_insert_ne, lookup_insert_eq by done.
Qed.

Lemma stored_note_notes :
  stored_note now generated note_data user !! "notes" = Some (VStr (NoteModel.notes note_data)).
Proof.
  unfold stored_note.
  by rewrite !lookup_insert_ne, lookup_singleton_eq by done.
Qed.

End StoredNote.

(** A create by an authenticated user succeeds when the collection does
    not hold the generated identifier yet. *)
Lemma create_note_authenticated (s : db) (token : string) (user : doc)
    (now : datetime) (generated : ObjectId) (note_data : NoteModel.t) :
  authenticated s token user →
  fresh_id generated (notes_collection s) →
  create_note now generated note_data token s
  = (inr (mkResponse true "Note created successfully" None
            (DataDoc (rendered (stored_note now generated note_data user)))),
     mkDb (user_collection s)
       (notes_collection s ++ [stored_note now generated note_data user])).
Proof.
  intros Hauth Hfresh. rewrite create_note_eq, Hauth. cbn zeta.
  by rewrite decide_False.
Qed.

(** C8. Round trip. When the token identifies user [u] and the driver
    generates a fresh identifier, creating a note succeeds, and listing
    the caller's notes under the same token afterwards returns the
    created record: its [created_by_user_email] is [u]'s email, its
    [project_name] and [notes] are those of the request, and its [_id] is
    a string that is not empty. *)
Theorem create_then_list_mine (s : db) (token : string) (u : doc)
    (now : datetime) (generated : ObjectId) (note_data : NoteModel.t) :
  authenticated s token u →
  Forall has_id (notes_collection s) →
  driver_id (VOid generated) →
  fresh_id generated (notes_collection s) →
  ∃ (r r' : response) (s' : db) (record : doc) (user_notes : list doc) (id : string),
    create_note now generated note_data token s = (inr r, s') ∧
    data r = DataDoc record ∧
    get_my_notes token s' = (inr r', s') ∧
    data r' = DataList user_notes ∧
    record ∈ user_notes ∧
    record !! "created_by_user_email" = Some (py_get u "email") ∧
    record !! "project_name" = Some (VStr (NoteModel.project_name note_data)) ∧
    record !! "notes" = Some (VStr (NoteModel.notes note_data)) ∧
    record !! "_id" = Some (VStr id) ∧ id ≠ "".
Proof.
  intros Hauth Hid Hdrv Hfresh.
  set (note := stored_note now generated note_data u).
  set (s' := mkDb (user_collection s) (notes_collection s ++ [note])).
  assert (Forall has_id (notes_collection s')) as Hid'.
  { apply Forall_app. split; [done|]. constructor; [|done].
    eexists. apply stored_note_lookup_id. }
  assert (authenticated s' token u) as Hauth' by done.
  eexists _, _, s', (rendered note), _, (ObjectId_str generated).
  split_and!.
  - by apply create_note_authenticated.
  - done.
  - by rewrite get_my_notes_eq, Hauth'.
  - done.
  - apply list_elem_of_fmap_2, list_elem_of_filter. split.
    + unfold py_get, note. by rewrite stored_note_created_by.
    + cbn [notes_collection s']. apply elem_of_app. right.
      apply list_elem_of_here.
  - rewrite rendered_lookup_ne by done. apply stored_note_created_by.
  - rewrite rendered_lookup_ne by done. apply stored_note_project_name.
  - rewrite rendered_lookup_ne by done. apply stored_note_notes.
  - rewrite rendered_id. unfold note. by rewrite stored_note_get_id.
  - by apply ObjectId_str_nonempty.
Qed.

Lemma create_then_list_mine_witness :
  authenticated Scenario.one_note "tok-alice" Scenario.alice ∧
  Forall has_id (notes_collection Scenario.one_note) ∧
  driver_id (VOid Scenario.oid2) ∧
  fresh_id Scenario.oid2 (notes_collection Scenario.one_note) ∧
  ∃ (r r' : response) (s' : db) (record : doc) (user_notes : list doc) (id : string),
    create_note Scenario.now Scenario.oid2 Scenario.note_data "tok-alice"
      Scenario.one_note = (inr r, s') ∧
    data r = DataDoc record ∧
    get_my_notes "tok-alice" s' = (inr r', s') ∧
    data r' = DataList user_notes ∧
    record ∈ user_notes ∧
    record !! "created_by_user_email" = Some (py_get Scenario.alice "email") ∧
    record !! "project_name"
    = Some (VStr (NoteModel.project_name Scenario.note_data)) ∧
    record !! "notes" = Some (VStr (NoteModel.notes Scenario.note_data)) ∧
    record !! "_id" = Some (VStr id) ∧ id ≠ "".
Proof.
  assert (authenticated Scenario.one_note "tok-alice" Scenario.alice) as Hauth
    by reflexivity.
  assert (Forall has_id (notes_collection Scenario.one_note)) as Hid.
  { apply (bool_decide_unpack _). vm_compute. exact I. }
  assert (driver_id (VOid Scenario.oid2)) as Hdrv by reflexivity.
  assert (fresh_id Scenario.oid2 (notes_collection Scenario.one_note)) as Hfresh.
  { apply (bool_decide_unpack _). vm_compute. exact I. }
  split_and!; [done..|].
  exact (create_then_list_mine Scenario.one_note "tok-alice" Scenario.alice
           Scenario.now Scenario.oid2 Scenario.note_data Hauth Hid Hdrv Hfresh).
Defined.

(** On the small database the round trip gives the database with both
    notes, and the new note is the second of [alice]'s. *)
Example round_trip_scenario :
  snd (create_note Scenario.now Scenario.oid2 Scenario.note_data "tok-alice"
         Scenario.one_note) = Scenario.two_notes ∧
  fst (get_my_notes "tok-alice" Scenario.two_notes)
  = inr (mkResponse true "Your notes retrieved successfully" (Some 2)
           (DataList [rendered Scenario.note1;
                      <["_id" := VStr Scenario.id2]> Scenario.note2])).
Proof. split; vm_compute; reflexivity. Qed.

(** C4, as the code has it. The schema of the create request requires
    four string fields, [project_name], [created_by_user_email],
    [created_date] and [notes]: a body in which one of them is missing or
    not a string is refused before the handler runs. For a body the
    schema accepts, an authenticated user and a fresh identifier, the note
    stored and the note returned have the authenticated user's email as
    [created_by_user_email] and the server time, formatted, as
    [created_date], whatever the body gave for these two fields;
    [project_name] and [notes] are the body's. *)
Theorem create_requires_four_fields_and_overwrites_two (s : db) (token : string)
    (user : doc) (now : datetime) (generated : ObjectId) (body : doc) :
  authenticated s token user →
  fresh_id generated (notes_collection s) →
  (∀ k, k ∈ ["project_name"; "created_by_user_email"; "created_date"; "notes"] →
        required_str (body !! k) = None →
        post_create now generated body token s = (inl RequestValidationError, s)) ∧
  (∀ note_data, NoteModel.validate body = Some note_data →
     ∃ note,
       post_create now generated body token s
       = (inr (mkResponse true "Note created successfully" None
                 (DataDoc (rendered note))),
          mkDb (user_collection s) (notes_collection s ++ [note])) ∧
       note !! "created_by_user_email" = Some (py_get user "email") ∧
       note !! "created_date" = Some (VStr (strftime_Ymd_HMS now)) ∧
       rendered note !! "created_by_user_email" = Some (py_get user "email") ∧
       rendered note !! "created_date" = Some (VStr (strftime_Ymd_HMS now)) ∧
       note !! "project_name" = body !! "project_name" ∧
       note !! "notes" = body !! "notes").
Proof.
  intros Hauth Hfresh. split.
  - intros k Hk Hmiss. unfold post_create.
    assert (NoteModel.validate body = None) as ->; [|done].
    unfold NoteModel.validate.
    destruct (optional_str _) as [id|]; [|done]. cbn [mbind option_bind].
    repeat (apply elem_of_cons in Hk as [->|Hk];
            [rewrite Hmiss;
             repeat (destruct (required_str _); cbn [mbind option_bind]; try done)|]).
    by apply elem_of_nil in Hk.
  - intros note_data Hvalid. unfold post_create. rewrite Hvalid.
    exists (stored_note now generated note_data user).
    rewrite (create_note_authenticated s token user) by done.
    rewrite !rendered_lookup_ne by done.
    rewrite stored_note_created_by, stored_note_created_date,
      stored_note_project_name, stored_note_notes.
    split_and!; try done.
    + unfold NoteModel.validate, required_str in Hvalid.
      destruct (optional_str _); [|done]. cbn [mbind option_bind] in Hvalid.
      destruct (body !! "project_name") as [[]|]; try done.
      cbn [mbind option_bind] in Hvalid.
      repeat (match type of Hvalid with
              | context [body !! ?k] => destruct (body !! k) as [[]|]; try done
              end; cbn [mbind option_bind] in Hvalid).
      by injection Hvalid as <-.
    + unfold NoteModel.validate, required_str in Hvalid.
      destruct (optional_str _); [|done]. cbn [mbind option_bind] in Hvalid.
      repeat (match type of Hvalid with
              | context [body !! ?k] => destruct (body !! k) as [[]|]; try done
              end; cbn [mbind option_bind] in Hvalid).
      by injection Hvalid as <-.
Qed.

Lemma create_requires_four_fields_and_overwrites_two_witness :
  authenticated Scenario.one_note "tok-alice" Scenario.alice ∧
  fresh_id Scenario.oid2 (notes_collection Scenario.one_note) ∧
  "created_date" ∈ ["project_name"; "created_by_user_email"; "created_date"; "notes"] ∧
  required_str (Scenario.short_body !! "created_date") = None ∧
  post_create Scenario.now Scenario.oid2 Scenario.short_body "tok-alice"
    Scenario.one_note
  = (inl RequestValidationError, Scenario.one_note) ∧
  NoteModel.validate Scenario.full_body
  = Some (NoteModel.mk None "P" "mallory@x.com" "1999-01-01 00:00:00" "N") ∧
  ∃ note,
    post_create Scenario.now Scenario.oid2 Scenario.full_body "tok-alice"
      Scenario.one_note
    = (inr (mkResponse true "Note created successfully" None
              (DataDoc (rendered note))),
       mkDb (user_collection Scenario.one_note)
         (notes_collection Scenario.one_note ++ [note])) ∧
    note !! "created_by_user_email" = Some (py_get Scenario.alice "email") ∧
    note !! "created_date" = Some (VStr (strftime_Ymd_HMS Scenario.now)) ∧
    rendered note !! "created_by_user_email"
    = Some (py_get Scenario.alice "email") ∧
    rendered note !! "created_date"
    = Some (VStr (strftime_Ymd_HMS Scenario.now)) ∧
    note !! "project_name" = Scenario.full_body !! "project_name" ∧
    note !! "notes" = Scenario.full_body !! "notes".
Proof.
  assert (authenticated Scenario.one_note "tok-alice" Scenario.alice) as Hauth
    by reflexivity.
  assert (fresh_id Scenario.oid2 (notes_collection Scenario.one_note)) as Hfresh.
  { apply (bool_decide_unpack _). vm_compute. exact I. }
  assert ("created_date"
          ∈ ["project_name"; "created_by_user_email"; "created_date"; "notes"])
    as Hk.
  { apply (bool_decide_unpack _). vm_compute. exact I. }
  assert (required_str (Scenario.short_body !! "created_date") = None) as Hmiss
    by reflexivity.
  assert (NoteModel.validate Scenario.full_body
          = Some (NoteModel.mk None "P" "mallory@x.com" "1999-01-01 00:00:00" "N"))
    as Hvalid by reflexivity.
  split; [exact Hauth|]. split; [exact Hfresh|]. split; [exact Hk|].
  split; [exact Hmiss|]. split; [|split; [exact Hvalid|]].
  - exact (proj1 (create_requires_four_fields_and_overwrites_two
                    Scenario.one_note "tok-alice" Scenario.alice Scenario.now
                    Scenario.oid2 Scenario.short_body Hauth Hfresh)
             "created_date" Hk Hmiss).
  - exact (proj2 (create_requires_four_fields_and_overwrites_two
                    Scenario.one_note "tok-alice" Scenario.alice Scenario.now
                    Scenario.oid2 Scenario.full_body Hauth Hfresh)
             _ Hvalid).
Defined.

(** C4, as the specification words it, fails: a body with
    [project_name] and [notes] only is not an input of the create
    operation. The schema refuses it and no note is created, although the
    credential is valid and the identifier fresh. *)
Lemma create_with_two_fields_is_refused :
  authenticated Scenario.one_note "tok-alice" Scenario.alice ∧
  fresh_id Scenario.oid2 (notes_collection Scenario.one_note) ∧
  Scenario.short_body = {[ "project_name" := VStr "P"; "notes" := VStr "N" ]} ∧
  NoteModel.validate Scenario.short_body = None ∧
  post_create Scenario.now Scenario.oid2 Scenario.short_body "tok-alice"
    Scenario.one_note
  = (inl RequestValidationError, Scenario.one_note).
Proof.
  split_and!; [reflexivity| |reflexivity..].
  apply (bool_decide_unpack _). vm_compute. exact I.
Qed.

(** ** Empty strings in an update *)

(** C10. An update of one's own note whose payload gives the empty string
    for [notes] (or for [project_name]) passes the schema with that field
    present, prepares a dictionary that is not empty, succeeds and stores
    the empty string in that field. *)
Theorem empty_string_is_a_field_to_update (s : db) (token note_id : string)
    (user note : doc) (object_id : ObjectId) :
  authenticated s token user →
  ObjectId_of_str note_id = Some object_id →
  note_by_id s object_id = Some note →
  py_get note "created_by_user_email" = py_get user "email" →
  ∃ i, notes_collection s !! i = Some note ∧
    NoteUpdateModel.validate {[ "notes" := VStr "" ]}
    = Some (NoteUpdateModel.mk None (Some "")) ∧
    NoteUpdateModel.validate {[ "project_name" := VStr "" ]}
    = Some (NoteUpdateModel.mk (Some "") None) ∧
    update_note note_id (NoteUpdateModel.mk None (Some "")) token s
    = (inr (mkResponse true "Note updated successfully" None
              (DataDoc (rendered (<["notes" := VStr ""]> note)))),
       mkDb (user_collection s)
         (<[i := <["notes" := VStr ""]> note]> (notes_collection s))) ∧
    update_note note_id (NoteUpdateModel.mk (Some "") None) token s
    = (inr (mkResponse true "Note updated successfully" None
              (DataDoc (rendered (<["project_name" := VStr ""]> note)))),
       mkDb (user_collection s)
         (<[i := <["project_name" := VStr ""]> note]> (notes_collection s))).
Proof.
  intros Hauth Hid [i Hfind]%note_by_id_list_find Hown.
  exists i. split; [by apply list_find_Some in Hfind as (?&_)|].
  split; [reflexivity|]. split; [reflexivity|].
  split.
  all: rewrite update_note_eq, Hauth, Hid, Hfind, decide_False by (by intros ?).
  all: unfold update_fields;
    cbn [NoteUpdateModel.project_name NoteUpdateModel.notes].
  all: rewrite decide_False by apply insert_non_empty.
  all: cbn zeta; by rewrite insert_empty, <-insert_union_singleton_l.
Qed.

Lemma empty_string_is_a_field_to_update_witness :
  authenticated Scenario.one_note "tok-alice" Scenario.alice ∧
  ObjectId_of_str Scenario.id1 = Some Scenario.oid1 ∧
  note_by_id Scenario.one_note Scenario.oid1 = Some Scenario.note1 ∧
  py_get Scenario.note1 "created_by_user_email" = py_get Scenario.alice "email" ∧
  ∃ i, notes_collection Scenario.one_note !! i = Some Scenario.note1 ∧
    NoteUpdateModel.validate {[ "notes" := VStr "" ]}
    = Some (NoteUpdateModel.mk None (Some "")) ∧
    NoteUpdateModel.validate {[ "project_name" := VStr "" ]}
    = Some (NoteUpdateModel.mk (Some "") None) ∧
    update_note Scenario.id1 (NoteUpdateModel.mk None (Some "")) "tok-alice"
      Scenario.one_note
    = (inr (mkResponse true "Note updated successfully" None
              (DataDoc (rendered (<["notes" := VStr ""]> Scenario.note1)))),
       mkDb (user_collection Scenario.one_note)
         (<[i := <["notes" := VStr ""]> Scenario.note1]>
            (notes_collection Scenario.one_note))) ∧
    update_note Scenario.id1 (NoteUpdateModel.mk (Some "") None) "tok-alice"
      Scenario.one_note
    = (inr (mkResponse true "Note updated successfully" None
              (DataDoc (rendered (<["project_name" := VStr ""]> Scenario.note1)))),
       mkDb (user_collection Scenario.one_note)
         (<[i := <["project_name" := VStr ""]> Scenario.note1]>
            (notes_collection Scenario.one_note))).
Proof.
  assert (authenticated Scenario.one_note "tok-alice" Scenario.alice) as Hauth
    by reflexivity.
  assert (ObjectId_of_str Scenario.id1 = Some Scenario.oid1) as Hid
    by reflexivity.
  assert (note_by_id Scenario.one_note Scenario.oid1 = Some Scenario.note1)
    as Hnote by reflexivity.
  assert (py_get Scenario.note1 "created_by_user_email"
          = py_get Scenario.alice "email") as Hown by reflexivity.
  split_and!; [done..|].
  exact (empty_string_is_a_field_to_update Scenario.one_note "tok-alice"
           Scenario.id1 Scenario.alice Scenario.note1 Scenario.oid1
           Hauth Hid Hnote Hown).
Defined.

(** The same through the route: the body [{"notes": ""}] is an update. *)
Example put_update_empty_notes :
  put_update Scenario.id1 {[ "notes" := VStr "" ]} "tok-alice" Scenario.one_note
  = (inr (mkResponse true "Note updated successfully" None
            (DataDoc (rendered (<["notes" := VStr ""]> Scenario.note1)))),
     mkDb [Scenario.alice; Scenario.bob] [<["notes" := VStr ""]> Scenario.note1]).
Proof. vm_compute. reflexivity. Qed.

(** ** The collection's invariant *)

Section Invariant.
Implicit Types (s : db) (c : list doc).

Lemma wf_notes_has_id c : wf_notes c → Forall has_id c.
Proof.
  intros [Hids _]. eapply Forall_impl; [exact Hids|].
  intros d Hd. unfold has_id, py_get in *.
  by destruct (d !! "_id") as [v|]; [eexists|].
Qed.

(** The identifiers of the collection after an update are those before. *)
Lemma ids_update c i old update_data :
  c !! i = Some old →
  (λ d, py_get d "_id") <$> <[i := update_fields update_data ∪ old]> c
  = (λ d, py_get d "_id") <$> c.
Proof.
  intros Hi. rewrite list_fmap_insert, set_fields_get_other by done.
  apply list_insert_id. by rewrite list_lookup_fmap, Hi.
Qed.

(** Whatever [create_note] returns, it leaves a well-formed collection
    well-formed, provided the driver's identifier has twelve bytes. *)
Lemma create_note_wf s s' token now generated note_data res :
  wf_notes (notes_collection s) → driver_id (VOid generated) →
  create_note now generated note_data token s = (res, s') →
  wf_notes (notes_collection s').
Proof.
  intros [Hids Hnd] Hdrv. rewrite create_note_eq.
  destruct (Collection.find_one _ (user_collection s)) as [user|];
    [|by intros [= _ <-]].
  cbn zeta. case_decide as Hin; [by intros [= _ <-]|].
  intros [= _ <-]. cbn [notes_collection]. split.
  - apply Forall_app. split; [done|]. constructor; [|done].
    by rewrite stored_note_get_id.
  - rewrite fmap_app. apply NoDup_app. split_and!; [done| |].
    + intros v Hv. cbn [fmap list_fmap]. rewrite stored_note_get_id.
      intros ->%list_elem_of_singleton. done.
    + cbn [fmap list_fmap]. apply NoDup_singleton.
Qed.

Lemma update_note_wf s s' token note_id update_data res :
  wf_notes (notes_collection s) →
  update_note note_id update_data token s = (res, s') →
  wf_notes (notes_collection s').
Proof.
  intros [Hids Hnd]. rewrite update_note_eq.
  destruct (Collection.find_one _ (user_collection s)) as [user|];
    [|by intros [= _ <-]].
  destruct (ObjectId_of_str note_id) as [object_id|]; [|by intros [= _ <-]].
  destruct (list_find _ (notes_collection s)) as [[i old]|] eqn:Hfind;
    [|by intros [= _ <-]].
  case_decide; [by intros [= _ <-]|]. case_decide; [by intros [= _ <-]|].
  cbn zeta. intros [= _ <-]. cbn [notes_collection].
  apply list_find_Some in Hfind as (Hi&_&_). split.
  - apply Forall_insert; [done|]. rewrite set_fields_get_other by done.
    rewrite Forall_forall in Hids. apply Hids.
    by eapply list_elem_of_lookup_2.
  - by rewrite ids_update.
Qed.

Lemma delete_note_wf s s' token note_id res :
  wf_notes (notes_collection s) →
  delete_note note_id token s = (res, s') →
  wf_notes (notes_collection s').
Proof.
  intros [Hids Hnd]. rewrite delete_note_eq.
  destruct (Collection.find_one _ (user_collection s)) as [user|];
    [|by intros [= _ <-]].
  destruct (ObjectId_of_str note_id) as [object_id|]; [|by intros [= _ <-]].
  destruct (list_find _ (notes_collection s)) as [[i old]|] eqn:Hfind;
    [|by intros [= _ <-]].
  case_decide; [by intros [= _ <-]|].
  intros [= _ <-]. cbn [notes_collection]. split.
  - by apply Forall_delete.
  - rewrite list_fmap_delete. eapply sublist_NoDup; [done|].
    apply sublist_delete.
Qed.

(** After a delete by its owner the note is gone: its identifier finds
    nothing any more. *)
Lemma delete_note_gone s s' token note_id object_id r :
  wf_notes (notes_collection s) →
  ObjectId_of_str note_id = Some object_id →
  delete_note note_id token s = (inr r, s') →
  note_by_id s' object_id = None.
Proof.
  intros [Hids Hnd] Hid. rewrite delete_note_eq, Hid.
  destruct (Collection.find_one _ (user_collection s)) as [user|]; [|done].
  destruct (list_find _ (notes_collection s)) as [[i old]|] eqn:Hfind; [|done].
  case_decide; [done|]. intros [= _ <-].
  apply list_find_Some in Hfind as (Hi&HM%Matches_singleton&_).
  unfold note_by_id. cbn [notes_collection].
  apply find_one_None. intros d [j Hj]%list_elem_of_lookup_1 HM'%Matches_singleton.
  assert (∀ k d', notes_collection s !! k = Some d' →
                  py_get d' "_id" = VOid object_id → k = i) as Huniq.
  { intros k d' Hk Hd'.
    eapply (NoDup_lookup _ _ _ (VOid object_id)); [done| |];
      rewrite list_lookup_fmap; [rewrite Hk|rewrite Hi]; simpl; congruence. }
  destruct (decide (j < i)) as [Hlt|Hge].
  - rewrite list_lookup_delete_lt in Hj by done.
    specialize (Huniq _ _ Hj HM'). lia.
  - rewrite list_lookup_delete_ge in Hj by lia.
    specialize (Huniq _ _ Hj HM'). lia.
Qed.

End Invariant.

(** ** The format of [created_date] *)

Module StrftimeFacts.
Import Strftime.





End StrftimeFacts.


Example strftime_scenario :
  strftime_Ymd_HMS Scenario.now = "2026-02-04 14:30:00".
Proof. reflexivity. Qed.

(** Credentials are compared as they are: the token of [alice] in upper
    case is not a token of the small database. *)
Example token_is_case_sensitive :
  get_all_notes "TOK-ALICE" Scenario.one_note = unauthorized Scenario.one_note ∧
  fst (get_all_notes "tok-alice" Scenario.one_note)
  = inr (mkResponse true "All notes retrieved successfully" (Some 1)
           (DataList [rendered Scenario.note1])).
Proof. split; vm_compute; reflexivity. Qed.

(** * Further properties of the handlers *)

(** ** What a request leaves alone *)

Section Effects.
Implicit Types (s : db) (token note_id : string).

Lemma stringify_id_state (note : doc) s : snd (stringify_id note s) = s.
Proof. unfold stringify_id. run. by destruct (note !! "_id"). Qed.

Lemma stringify_ids_state (l : list doc) s : snd (stringify_ids l s) = s.
Proof.
  induction l as [|note l IH]; [done|].
  cbn [stringify_ids]. run.
  pose proof (stringify_id_state note s) as Hn.
  destruct (stringify_id note s) as [[e|note'] s1]; simpl in Hn; subst s1; [done|].
  destruct (stringify_ids l s) as [[e|l'] s2]; simpl in IH; by subst s2.
Qed.

(** The three handlers that write, as functions of the outcome of their
    checks: the state after the request is the state before it, or the
    state with one note appended, replaced or removed. *)
Lemma create_note_cases now generated note_data token s :
  (∃ e, create_note now generated note_data token s = (inl e, s)) ∨
  (∃ r user, authenticated s token user ∧ fresh_id generated (notes_collection s) ∧
     create_note now generated note_data token s
     = (inr r, mkDb (user_collection s)
                 (notes_collection s ++ [stored_note now generated note_data user]))).
Proof.
  rewrite create_note_eq.
  destruct (Collection.find_one _ (user_collection s)) as [user|] eqn:Hu;
    [|left; by eexists].
  cbn zeta. case_decide; [left; by eexists|]. right. by eexists _, user.
Qed.

Lemma update_note_cases note_id update_data token s :
  (∃ status detail,
     status ∈ [400; 401; 403; 404] ∧
     update_note note_id update_data token s
     = (inl (HTTPException status detail), s)) ∨
  (∃ r i old, notes_collection s !! i = Some old ∧
     update_note note_id update_data token s
     = (inr r, mkDb (user_collection s)
                 (<[i := update_fields update_data ∪ old]> (notes_collection s)))).
Proof.
  rewrite update_note_eq.
  destruct (Collection.find_one _ (user_collection s)) as [user|];
    [|left; eexists _, _; split; [|done]; set_solver].
  destruct (ObjectId_of_str note_id) as [object_id|];
    [|left; eexists _, _; split; [|done]; set_solver].
  destruct (list_find _ (notes_collection s)) as [[i old]|] eqn:Hfind;
    [|left; eexists _, _; split; [|done]; set_solver].
  case_decide; [left; eexists _, _; split; [|done]; set_solver|].
  case_decide; [left; eexists _, _; split; [|done]; set_solver|].
  right. eexists _, i, old. split; [|done].
  by apply list_find_Some in Hfind as (?&_).
Qed.

Lemma delete_note_cases note_id token s :
  (∃ status detail,
     status ∈ [400; 401; 403; 404] ∧
     delete_note note_id token s = (inl (HTTPException status detail), s)) ∨
  (∃ r i old, notes_collection s !! i = Some old ∧
     delete_note note_id token s
     = (inr r, mkDb (user_collection s) (delete i (notes_collection s)))).
Proof.
  rewrite delete_note_eq.
  destruct (Collection.find_one _ (user_collection s)) as [user|];
    [|left; eexists _, _; split; [|done]; set_solver].
  destruct (ObjectId_of_str note_id) as [object_id|];
    [|left; eexists _, _; split; [|done]; set_solver].
  destruct (list_find _ (notes_collection s)) as [[i old]|] eqn:Hfind;
    [|left; eexists _, _; split; [|done]; set_solver].
  case_decide; [left; eexists _, _; split; [|done]; set_solver|].
  right. eexists _, i, old. split; [|done].
  by apply list_find_Some in Hfind as (?&_).
Qed.

Lemma get_all_notes_state token s : snd (get_all_notes token s) = s.
Proof.
  unfold get_all_notes. run.
  destruct (py_truthy _) as [user|]; [|done].
  pose proof (stringify_ids_state (Collection.find ∅ (notes_collection s)) s) as H.
  destruct (stringify_ids _ s) as [[e|l] s1]; simpl in H; by subst s1.
Qed.

Lemma get_my_notes_state token s : snd (get_my_notes token s) = s.
Proof.
  unfold get_my_notes. run.
  destruct (py_truthy _) as [user|]; [|done].
  match goal with
  | |- context [stringify_ids ?l s] =>
      pose proof (stringify_ids_state l s) as H;
      destruct (stringify_ids l s) as [[e|l'] s1]
  end; simpl in H; by subst s1.
Qed.

End Effects.

(** X1. The two list handlers are read-only: whatever they end with, a
    response or an exception, both collections are what they were. *)
Theorem list_handlers_are_read_only (s : db) (token : string) :
  snd (get_all_notes token s) = s ∧ snd (get_my_notes token s) = s.
Proof. split; [apply get_all_notes_state|apply get_my_notes_state]. Qed.

(** X2. No handler writes to the user collection: after any of the five
    requests, whatever its outcome, the user records are those before. *)
Theorem handlers_keep_user_collection (s : db) (token note_id : string)
    (now : datetime) (generated : ObjectId)
    (note_data : NoteModel.t) (update_data : NoteUpdateModel.t) :
  user_collection (snd (create_note now generated note_data token s))
  = user_collection s ∧
  user_collection (snd (get_all_notes token s)) = user_collection s ∧
  user_collection (snd (get_my_notes token s)) = user_collection s ∧
  user_collection (snd (update_note note_id update_data token s))
  = user_collection s ∧
  user_collection (snd (delete_note note_id token s)) = user_collection s.
Proof.
  split_and!.
  - destruct (create_note_cases now generated note_data token s)
      as [[e ->]|(r&user&_&_&->)]; done.
  - by rewrite get_all_notes_state.
  - by rewrite get_my_notes_state.
  - destruct (update_note_cases note_id update_data token s)
      as [(st&dt&_&->)|(r&i&old&_&->)]; done.
  - destruct (delete_note_cases note_id token s)
      as [(st&dt&_&->)|(r&i&old&_&->)]; done.
Qed.

(** X3. A request that ends with an exception has written nothing: when
    create, update or delete fails, for whatever reason, both collections
    are what they were. *)
Theorem failed_request_writes_nothing (s s' : db) (token note_id : string)
    (now : datetime) (generated : ObjectId)
    (note_data : NoteModel.t) (update_data : NoteUpdateModel.t) (e : exn) :
  create_note now generated note_data token s = (inl e, s') ∨
  update_note note_id update_data token s = (inl e, s') ∨
  delete_note note_id token s = (inl e, s') →
  s' = s.
Proof.
  intros [H|[H|H]].
  - destruct (create_note_cases now generated note_data token s)
      as [[e' E]|(r&user&_&_&E)]; rewrite E in H; congruence.
  - destruct (update_note_cases note_id update_data token s)
      as [(st&dt&_&E)|(r&i&old&_&E)]; rewrite E in H; congruence.
  - destruct (delete_note_cases note_id token s)
      as [(st&dt&_&E)|(r&i&old&_&E)]; rewrite E in H; congruence.
Qed.

Lemma failed_request_writes_nothing_witness :
  update_note Scenario.id1 Scenario.no_fields "tok-alice" Scenario.one_note
  = (inl (HTTPException 400 "No fields to update"), Scenario.one_note) ∧
  Scenario.one_note = Scenario.one_note.
Proof.
  assert (update_note Scenario.id1 Scenario.no_fields "tok-alice"
            Scenario.one_note
          = (inl (HTTPException 400 "No fields to update"), Scenario.one_note))
    as Hrun.
  { vm_compute. reflexivity. }
  split; [exact Hrun|].
  exact (failed_request_writes_nothing Scenario.one_note Scenario.one_note
           "tok-alice" Scenario.id1 Scenario.now Scenario.oid2
           Scenario.note_data Scenario.no_fields _ (or_intror (or_introl Hrun))).
Defined.

(** X4. Update and delete fail in four ways only, the HTTP errors 400,
    401, 403 and 404: reading the note back after the update and taking
    its [_id] never raises. *)
Theorem update_and_delete_fail_with_http_errors_only (s s' : db)
    (token note_id : string) (update_data : NoteUpdateModel.t) (e : exn) :
  update_note note_id update_data token s = (inl e, s') ∨
  delete_note note_id token s = (inl e, s') →
  ∃ status detail, e = HTTPException status detail ∧
                   status ∈ [400; 401; 403; 404].
Proof.
  intros [H|H].
  - destruct (update_note_cases note_id update_data token s)
      as [(st&dt&Hst&E)|(r&i&old&_&E)]; rewrite E in H; [|done].
    injection H as <- _. by exists st, dt.
  - destruct (delete_note_cases note_id token s)
      as [(st&dt&Hst&E)|(r&i&old&_&E)]; rewrite E in H; [|done].
    injection H as <- _. by exists st, dt.
Qed.

Lemma update_and_delete_fail_with_http_errors_only_witness :
  delete_note Scenario.id2 "tok-alice" Scenario.one_note
  = (inl (HTTPException 404 "Note not found"), Scenario.one_note) ∧
  ∃ status detail, HTTPException 404 "Note not found" = HTTPException status detail ∧
                   status ∈ [400; 401; 403; 404].
Proof.
  assert (delete_note Scenario.id2 "tok-alice" Scenario.one_note
          = (inl (HTTPException 404 "Note not found"), Scenario.one_note))
    as Hrun.
  { vm_compute. reflexivity. }
  split; [exact Hrun|].
  exact (update_and_delete_fail_with_http_errors_only Scenario.one_note
           Scenario.one_note "tok-alice" Scenario.id2 Scenario.no_fields _
           (or_intror Hrun)).
Defined.

(** ** Identifiers stay unique *)

(** X5. The handlers that write keep the collection well-formed: when
    every note is stored under a twelve-byte identifier and no identifier
    occurs twice, the same holds after a create (with an identifier of the
    driver), an update or a delete, whatever the outcome of the request. *)
Theorem writes_keep_identifiers_unique (s : db) (token note_id : string)
    (now : datetime) (generated : ObjectId)
    (note_data : NoteModel.t) (update_data : NoteUpdateModel.t) :
  wf_notes (notes_collection s) →
  driver_id (VOid generated) →
  wf_notes (notes_collection (snd (create_note now generated note_data token s))) ∧
  wf_notes (notes_collection (snd (update_note note_id update_data token s))) ∧
  wf_notes (notes_collection (snd (delete_note note_id token s))).
Proof.
  intros Hwf Hdrv. split_and!.
  - destruct (create_note now generated note_data token s) as [res s'] eqn:E.
    by eapply create_note_wf.
  - destruct (update_note note_id update_data token s) as [res s'] eqn:E.
    by eapply update_note_wf.
  - destruct (delete_note note_id token s) as [res s'] eqn:E.
    by eapply delete_note_wf.
Qed.

Lemma writes_keep_identifiers_unique_witness :
  wf_notes (notes_collection Scenario.one_note) ∧
  driver_id (VOid Scenario.oid2) ∧
  wf_notes (notes_collection
              (snd (create_note Scenario.now Scenario.oid2 Scenario.note_data
                      "tok-alice" Scenario.one_note))) ∧
  wf_notes (notes_collection
              (snd (update_note Scenario.id1 Scenario.only_notes "tok-alice"
                      Scenario.one_note))) ∧
  wf_notes (notes_collection
              (snd (delete_note Scenario.id1 "tok-alice" Scenario.one_note))).
Proof.
  assert (wf_notes (notes_collection Scenario.one_note)) as Hwf.
  { apply (bool_decide_unpack _). vm_compute. exact I. }
  assert (driver_id (VOid Scenario.oid2)) as Hdrv by reflexivity.
  split; [exact Hwf|]. split; [exact Hdrv|].
  exact (writes_keep_identifiers_unique Scenario.one_note "tok-alice"
           Scenario.id1 Scenario.now Scenario.oid2 Scenario.note_data
           Scenario.only_notes Hwf Hdrv).
Defined.

(** ** After a delete *)

Section AfterDelete.
Context (P : doc → Prop) `{!∀ d, Decision (P d)}.

(** Removing a document that is not selected does not change which
    document a query finds. *)
Lemma find_delete_other (c : list doc) (i : nat) (d : doc) :
  c !! i = Some d → ¬ P d →
  snd <$> list_find P (delete i c) = snd <$> list_find P c.
Proof.
  revert i. induction c as [|x c IH]; intros i Hi HP; [done|].
  destruct i as [|i]; simplify_eq/=.
  - rewrite decide_False by done.
    rewrite <-option_fmap_compose. by destruct (list_find P c) as [[]|].
  - case_decide; [done|].
    rewrite <-!option_fmap_compose.
    specialize (IH i Hi HP).
    destruct (list_find P (delete i c)) as [[]|],
             (list_find P c) as [[]|]; naive_solver.
Qed.

End AfterDelete.

(** X6. A deleted note is gone: after a successful delete, with unique
    identifiers, an update or a delete of the same [note_id] under the
    same token ends with 404 "Note not found". *)
Theorem deleted_note_is_not_found (s s' : db) (token note_id : string)
    (update_data : NoteUpdateModel.t) (r : response) :
  wf_notes (notes_collection s) →
  delete_note note_id token s = (inr r, s') →
  update_note note_id update_data token s'
  = (inl (HTTPException 404 "Note not found"), s') ∧
  delete_note note_id token s'
  = (inl (HTTPException 404 "Note not found"), s').
Proof.
  intros Hwf Hrun.
  assert (∃ user object_id,
            authenticated s' token user ∧
            ObjectId_of_str note_id = Some object_id) as (user&object_id&Hauth&Hid).
  { rewrite delete_note_eq in Hrun.
    destruct (Collection.find_one _ (user_collection s)) as [user|] eqn:Hu; [|done].
    destruct (ObjectId_of_str note_id) as [object_id|]; [|done].
    destruct (list_find _ (notes_collection s)) as [[i note]|]; [|done].
    case_decide; [done|]. injection Hrun as _ <-. by exists user, object_id. }
  pose proof (delete_note_gone _ _ _ _ _ _ Hwf Hid Hrun) as Hgone.
  unfold note_by_id, Collection.find_one in Hgone. apply fmap_None in Hgone.
  by rewrite update_note_eq, delete_note_eq, Hauth, Hid, Hgone.
Qed.

Lemma deleted_note_is_not_found_witness :
  wf_notes (notes_collection Scenario.one_note) ∧
  delete_note Scenario.id1 "tok-alice" Scenario.one_note
  = (inr Scenario.deleted_lower, Scenario.empty) ∧
  update_note Scenario.id1 Scenario.only_notes "tok-alice" Scenario.empty
  = (inl (HTTPException 404 "Note not found"), Scenario.empty) ∧
  delete_note Scenario.id1 "tok-alice" Scenario.empty
  = (inl (HTTPException 404 "Note not found"), Scenario.empty).
Proof.
  assert (wf_notes (notes_collection Scenario.one_note)) as Hwf.
  { apply (bool_decide_unpack _). vm_compute. exact I. }
  assert (delete_note Scenario.id1 "tok-alice" Scenario.one_note
          = (inr Scenario.deleted_lower, Scenario.empty)) as Hrun.
  { vm_compute. reflexivity. }
  split; [exact Hwf|]. split; [exact Hrun|].
  exact (deleted_note_is_not_found Scenario.one_note Scenario.empty "tok-alice"
           Scenario.id1 Scenario.only_notes Scenario.deleted_lower Hwf Hrun).
Defined.

(** X7. A successful delete removes one note and no other: the collection
    is one note shorter, and every other identifier finds the note it
    found before. *)
Theorem delete_removes_one_note (s s' : db) (token note_id : string)
    (object_id : ObjectId) (r : response) :
  ObjectId_of_str note_id = Some object_id →
  delete_note note_id token s = (inr r, s') →
  S (length (notes_collection s')) = length (notes_collection s) ∧
  ∀ other, other ≠ object_id → note_by_id s' other = note_by_id s other.
Proof.
  intros Hid. rewrite delete_note_eq, Hid.
  destruct (Collection.find_one _ (user_collection s)) as [user|]; [|done].
  destruct (list_find _ (notes_collection s)) as [[i note]|] eqn:Hfind; [|done].
  case_decide; [done|]. intros [= _ <-].
  apply list_find_Some in Hfind as (Hi&HM%Matches_singleton&_).
  cbn [notes_collection]. split.
  - rewrite length_delete by (by eexists). apply lookup_lt_Some in Hi. lia.
  - intros other Hother. unfold note_by_id, Collection.find_one.
    cbn [notes_collection]. eapply find_delete_other; [done|].
    intros HM'%Matches_singleton. congruence.
Qed.

Lemma delete_removes_one_note_witness :
  ObjectId_of_str Scenario.id2 = Some Scenario.oid2 ∧
  delete_note Scenario.id2 "tok-alice" Scenario.two_notes
  = (inr Scenario.deleted2, Scenario.one_note) ∧
  S (length (notes_collection Scenario.one_note))
  = length (notes_collection Scenario.two_notes) ∧
  ∀ other, other ≠ Scenario.oid2 →
           note_by_id Scenario.one_note other = note_by_id Scenario.two_notes other.
Proof.
  assert (ObjectId_of_str Scenario.id2 = Some Scenario.oid2) as Hid
    by reflexivity.
  assert (delete_note Scenario.id2 "tok-alice" Scenario.two_notes
          = (inr Scenario.deleted2, Scenario.one_note)) as Hrun.
  { vm_compute. reflexivity. }
  split; [exact Hid|]. split; [exact Hrun|].
  exact (delete_removes_one_note Scenario.two_notes Scenario.one_note
           "tok-alice" Scenario.id2 Scenario.oid2 Scenario.deleted2 Hid Hrun).
Defined.

(** ** Updates *)

(** X8. Sending a successful update a second time changes nothing more:
    the same request on the resulting state succeeds again, with the same
    response, and leaves that state as it is. *)
Theorem update_twice_is_update_once (s s' : db) (token note_id : string)
    (update_data : NoteUpdateModel.t) (r : response) :
  update_note note_id update_data token s = (inr r, s') →
  update_note note_id update_data token s' = (inr r, s').
Proof.
  rewrite !update_note_eq. intros Hrun.
  destruct (Collection.find_one _ (user_collection s)) as [user|] eqn:Hu; [|done].
  destruct (ObjectId_of_str note_id) as [object_id|]; [|done].
  destruct (list_find _ (notes_collection s)) as [[i old]|] eqn:Hfind; [|done].
  case_decide as Hown; [done|]. case_decide as Hfields; [done|].
  cbn zeta in Hrun. injection Hrun as <- <-.
  cbn [user_collection notes_collection]. rewrite Hu.
  assert (Matches {[ "_id" := VOid object_id ]} (update_fields update_data ∪ old))
    as HM.
  { apply list_find_Some in Hfind as (_&HM&_).
    apply Matches_singleton. apply Matches_singleton in HM.
    by rewrite set_fields_get_other. }
  rewrite (list_find_replace _ _ _ _ _ Hfind HM).
  rewrite set_fields_get_other by done.
  rewrite decide_False by (by intros ?).
  by rewrite (assoc_L (∪)), (idemp_L (∪)), list_insert_insert_eq.
Qed.

Lemma update_twice_is_update_once_witness :
  update_note Scenario.id1 Scenario.only_notes "tok-alice" Scenario.one_note
  = (inr Scenario.updated, Scenario.after_update) ∧
  update_note Scenario.id1 Scenario.only_notes "tok-alice" Scenario.after_update
  = (inr Scenario.updated, Scenario.after_update).
Proof.
  assert (update_note Scenario.id1 Scenario.only_notes "tok-alice"
            Scenario.one_note = (inr Scenario.updated, Scenario.after_update))
    as Hrun.
  { vm_compute. reflexivity. }
  split; [exact Hrun|].
  exact (update_twice_is_update_once _ _ _ _ _ _ Hrun).
Defined.

(** X9. An update moves no note: after any update request the
    identifiers, the owners and the creation dates of the stored notes
    are, note by note and in the same order, those before it. *)
Theorem update_keeps_ids_owners_and_dates (s : db) (token note_id : string)
    (update_data : NoteUpdateModel.t) (k : string) :
  k ∈ ["_id"; "created_by_user_email"; "created_date"] →
  (λ d, py_get d k) <$> notes_collection (snd (update_note note_id update_data token s))
  = (λ d, py_get d k) <$> notes_collection s.
Proof.
  intros Hk.
  assert (k ≠ "project_name" ∧ k ≠ "notes") as [??].
  { repeat (apply elem_of_cons in Hk as [->|Hk]; [done|]).
    by apply elem_of_nil in Hk. }
  destruct (update_note_cases note_id update_data token s)
    as [(st&dt&_&->)|(r&i&old&Hi&->)]; [done|].
  cbn [snd notes_collection].
  rewrite list_fmap_insert, set_fields_get_other by done.
  apply list_insert_id. by rewrite list_lookup_fmap, Hi.
Qed.

Lemma update_keeps_ids_owners_and_dates_witness :
  "created_by_user_email" ∈ ["_id"; "created_by_user_email"; "created_date"] ∧
  (λ d, py_get d "created_by_user_email")
    <$> notes_collection (snd (update_note Scenario.id1 Scenario.only_notes
                                 "tok-alice" Scenario.one_note))
  = (λ d, py_get d "created_by_user_email") <$> notes_collection Scenario.one_note.
Proof.
  assert ("created_by_user_email"
          ∈ ["_id"; "created_by_user_email"; "created_date"]) as Hk.
  { apply (bool_decide_unpack _). vm_compute. exact I. }
  split; [exact Hk|].
  exact (update_keeps_ids_owners_and_dates Scenario.one_note "tok-alice"
           Scenario.id1 Scenario.only_notes "created_by_user_email" Hk).
Defined.

(** ** Creating, listing and deleting together *)

(** X10. A created note shows up last and alone: after a successful
    create, listing all notes returns the notes listed before, in their
    order, followed by the created note as the create response gave it,
    and the count is one more. *)
Theorem create_appends_to_list_all (s : db) (token : string) (user : doc)
    (now : datetime) (generated : ObjectId) (note_data : NoteModel.t) :
  authenticated s token user →
  Forall has_id (notes_collection s) →
  fresh_id generated (notes_collection s) →
  ∃ created before s',
    create_note now generated note_data token s
    = (inr (mkResponse true "Note created successfully" None (DataDoc created)), s') ∧
    get_all_notes token s
    = (inr (mkResponse true "All notes retrieved successfully"
              (Some (length before)) (DataList before)), s) ∧
    get_all_notes token s'
    = (inr (mkResponse true "All notes retrieved successfully"
              (Some (S (length before))) (DataList (before ++ [created]))), s').
Proof.
  intros Hauth Hid Hfresh.
  set (note := stored_note now generated note_data user).
  exists (rendered note), (rendered <$> notes_collection s),
    (mkDb (user_collection s) (notes_collection s ++ [note])).
  split_and!.
  - by apply create_note_authenticated.
  - by rewrite get_all_notes_eq, Hauth.
  - rewrite get_all_notes_eq.
    + cbn [user_collection notes_collection]. rewrite Hauth. cbn zeta.
      rewrite fmap_app, length_app. cbn [fmap list_fmap length].
      by rewrite Nat.add_1_r.
    + cbn [notes_collection]. apply Forall_app. split; [done|].
      constructor; [|done]. eexists. apply stored_note_lookup_id.
Qed.

Lemma create_appends_to_list_all_witness :
  authenticated Scenario.one_note "tok-alice" Scenario.alice ∧
  Forall has_id (notes_collection Scenario.one_note) ∧
  fresh_id Scenario.oid2 (notes_collection Scenario.one_note) ∧
  ∃ created before s',
    create_note Scenario.now Scenario.oid2 Scenario.note_data "tok-alice"
      Scenario.one_note
    = (inr (mkResponse true "Note created successfully" None (DataDoc created)), s') ∧
    get_all_notes "tok-alice" Scenario.one_note
    = (inr (mkResponse true "All notes retrieved successfully"
              (Some (length before)) (DataList before)), Scenario.one_note) ∧
    get_all_notes "tok-alice" s'
    = (inr (mkResponse true "All notes retrieved successfully"
              (Some (S (length before))) (DataList (before ++ [created]))), s').
Proof.
  assert (authenticated Scenario.one_note "tok-alice" Scenario.alice) as Hauth
    by reflexivity.
  assert (Forall has_id (notes_collection Scenario.one_note)) as Hid.
  { apply (bool_decide_unpack _). vm_compute. exact I. }
  assert (fresh_id Scenario.oid2 (notes_collection Scenario.one_note)) as Hfresh.
  { apply (bool_decide_unpack _). vm_compute. exact I. }
  split; [exact Hauth|]. split; [exact Hid|]. split; [exact Hfresh|].
  exact (create_appends_to_list_all Scenario.one_note "tok-alice" Scenario.alice
           Scenario.now Scenario.oid2 Scenario.note_data Hauth Hid Hfresh).
Defined.

(** X11. The identifier a create returns is the note's handle: deleting
    that identifier under the same token succeeds, is never refused as
    somebody else's note, and gives back the collections as they were
    before the create. *)
Theorem create_then_delete_restores (s : db) (token : string) (user : doc)
    (now : datetime) (generated : ObjectId) (note_data : NoteModel.t) :
  authenticated s token user →
  driver_id (VOid generated) →
  fresh_id generated (notes_collection s) →
  ∃ created id s',
    create_note now generated note_data token s
    = (inr (mkResponse true "Note created successfully" None (DataDoc created)), s') ∧
    created !! "_id" = Some (VStr id) ∧
    delete_note id token s'
    = (inr (mkResponse true "Note deleted successfully" None
              (DataDoc {[ "_id" := VStr id; "deleted" := VBool true ]})), s).
Proof.
  intros Hauth Hdrv Hfresh.
  set (note := stored_note now generated note_data user).
  exists (rendered note), (ObjectId_str generated),
    (mkDb (user_collection s) (notes_collection s ++ [note])).
  split_and!.
  - by apply create_note_authenticated.
  - rewrite rendered_id. unfold note. by rewrite stored_note_get_id.
  - rewrite delete_note_eq. cbn [user_collection notes_collection].
    rewrite Hauth, ObjectId_of_str_str by done.
    assert (list_find (Matches {[ "_id" := VOid generated ]})
              (notes_collection s ++ [note])
            = Some (length (notes_collection s), note)) as ->.
    { apply list_find_Some. split_and!.
      - by rewrite lookup_app_r, Nat.sub_diag by done.
      - apply Matches_singleton. apply stored_note_get_id.
      - intros j y Hj Hlt HM%Matches_singleton.
        rewrite lookup_app_l in Hj by done.
        apply Hfresh, list_elem_of_fmap. exists y.
        split; [done|by eapply list_elem_of_lookup_2]. }
    rewrite decide_False.
    + rewrite delete_middle, app_nil_r. by destruct s.
    + intros Hne. apply Hne. unfold py_get, note.
      by rewrite stored_note_created_by.
Qed.

Lemma create_then_delete_restores_witness :
  authenticated Scenario.one_note "tok-alice" Scenario.alice ∧
  driver_id (VOid Scenario.oid2) ∧
  fresh_id Scenario.oid2 (notes_collection Scenario.one_note) ∧
  ∃ created id s',
    create_note Scenario.now Scenario.oid2 Scenario.note_data "tok-alice"
      Scenario.one_note
    = (inr (mkResponse true "Note created successfully" None (DataDoc created)), s') ∧
    created !! "_id" = Some (VStr id) ∧
    delete_note id "tok-alice" s'
    = (inr (mkResponse true "Note deleted successfully" None
              (DataDoc {[ "_id" := VStr id; "deleted" := VBool true ]})),
       Scenario.one_note).
Proof.
  assert (authenticated Scenario.one_note "tok-alice" Scenario.alice) as Hauth
    by reflexivity.
  assert (driver_id (VOid Scenario.oid2)) as Hdrv by reflexivity.
  assert (fresh_id Scenario.oid2 (notes_collection Scenario.one_note)) as Hfresh.
  { apply (bool_decide_unpack _). vm_compute. exact I. }
  split; [exact Hauth|]. split; [exact Hdrv|]. split; [exact Hfresh|].
  exact (create_then_delete_restores Scenario.one_note "tok-alice" Scenario.alice
           Scenario.now Scenario.oid2 Scenario.note_data Hauth Hdrv Hfresh).
Defined.

(** X12. What a caller gets as own notes is part of what the caller gets
    as all notes: the data of [get_my_notes] is a sublist of the data of
    [get_all_notes], in the same order, so its count is not larger. *)
Theorem my_notes_are_among_all_notes (s : db) (token : string) (user : doc) :
  authenticated s token user →
  Forall has_id (notes_collection s) →
  ∃ all_notes user_notes,
    get_all_notes token s
    = (inr (mkResponse true "All notes retrieved successfully"
              (Some (length all_notes)) (DataList all_notes)), s) ∧
    get_my_notes token s
    = (inr (mkResponse true "Your notes retrieved successfully"
              (Some (length user_notes)) (DataList user_notes)), s) ∧
    user_notes `sublist_of` all_notes ∧
    (length user_notes ≤ length all_notes)%nat.
Proof.
  intros Hauth Hid.
  exists (rendered <$> notes_collection s),
    (rendered <$> notes_of (py_get user "email") (notes_collection s)).
  assert (rendered <$> notes_of (py_get user "email") (notes_collection s)
          `sublist_of` rendered <$> notes_collection s) as Hsub.
  { apply fmap_sublist, sublist_filter. }
  split_and!.
  - by rewrite get_all_notes_eq, Hauth.
  - by rewrite get_my_notes_eq, Hauth.
  - done.
  - by apply sublist_length.
Qed.

Lemma my_notes_are_among_all_notes_witness :
  authenticated Scenario.two_notes "tok-bob" Scenario.bob ∧
  Forall has_id (notes_collection Scenario.two_notes) ∧
  ∃ all_notes user_notes,
    get_all_notes "tok-bob" Scenario.two_notes
    = (inr (mkResponse true "All notes retrieved successfully"
              (Some (length all_notes)) (DataList all_notes)), Scenario.two_notes) ∧
    get_my_notes "tok-bob" Scenario.two_notes
    = (inr (mkResponse true "Your notes retrieved successfully"
              (Some (length user_notes)) (DataList user_notes)), Scenario.two_notes) ∧
    user_notes `sublist_of` all_notes ∧
    (length user_notes ≤ length all_notes)%nat.
Proof.
  assert (authenticated Scenario.two_notes "tok-bob" Scenario.bob) as Hauth
    by reflexivity.
  assert (Forall has_id (notes_collection Scenario.two_notes)) as Hid.
  { apply (bool_decide_unpack _). vm_compute. exact I. }
  split; [exact Hauth|]. split; [exact Hid|].
  exact (my_notes_are_among_all_notes Scenario.two_notes "tok-bob" Scenario.bob
           Hauth Hid).
Defined.

(** ** Owners *)

(** X13. Only the owner writes: whenever an update or a delete succeeds,
    the token identifies a user, the identifier parses and finds a note,
    and that note's [created_by_user_email] is the user's email. *)
Theorem only_the_owner_writes (s s' : db) (token note_id : string)
    (update_data : NoteUpdateModel.t) (r : response) :
  update_note note_id update_data token s = (inr r, s') ∨
  delete_note note_id token s = (inr r, s') →
  ∃ user object_id note,
    authenticated s token user ∧
    ObjectId_of_str note_id = Some object_id ∧
    note_by_id s object_id = Some note ∧
    py_get note "created_by_user_email" = py_get user "email".
Proof.
  intros Hrun.
  pose proof (update_note_eq note_id update_data token s) as HU.
  pose proof (delete_note_eq note_id token s) as HD.
  unfold authenticated.
  destruct (Collection.find_one _ (user_collection s)) as [user|];
    [|destruct Hrun; congruence].
  destruct (ObjectId_of_str note_id) as [object_id|];
    [|destruct Hrun; congruence].
  destruct (list_find _ (notes_collection s)) as [[i note]|] eqn:Hfind;
    [|destruct Hrun; congruence].
  destruct (decide (py_get note "created_by_user_email" ≠ py_get user "email"))
    as [Hne|Hown%dec_stable]; [destruct Hrun; congruence|].
  exists user, object_id, note. split_and!; [done..| |done].
  unfold note_by_id, Collection.find_one. by rewrite Hfind.
Qed.

Lemma only_the_owner_writes_witness :
  delete_note Scenario.id1 "tok-alice" Scenario.one_note
  = (inr Scenario.deleted_lower, Scenario.empty) ∧
  ∃ user object_id note,
    authenticated Scenario.one_note "tok-alice" user ∧
    ObjectId_of_str Scenario.id1 = Some object_id ∧
    note_by_id Scenario.one_note object_id = Some note ∧
    py_get note "created_by_user_email" = py_get user "email".
Proof.
  assert (delete_note Scenario.id1 "tok-alice" Scenario.one_note
          = (inr Scenario.deleted_lower, Scenario.empty)) as Hrun.
  { vm_compute. reflexivity. }
  split; [exact Hrun|].
  exact (only_the_owner_writes Scenario.one_note Scenario.empty "tok-alice"
           Scenario.id1 Scenario.only_notes Scenario.deleted_lower
           (or_intror Hrun)).
Defined.

Section OtherOwners.
Context (P : doc → Prop) `{!∀ d, Decision (P d)}.
Implicit Types (c : list doc) (d : doc) (i : nat).

Lemma filter_insert_other c i old new :
  c !! i = Some old → ¬ P old → ¬ P new →
  filter P (<[i := new]> c) = filter P c.
Proof.
  revert i. induction c as [|x c IH]; intros i Hi Hold Hnew; [done|].
  destruct i as [|i]; simplify_eq/=.
  - by rewrite !filter_cons_False.
  - rewrite !filter_cons. by rewrite (IH i).
Qed.

Lemma filter_delete_other c i old :
  c !! i = Some old → ¬ P old → filter P (delete i c) = filter P c.
Proof.
  revert i. induction c as [|x c IH]; intros i Hi Hold; [done|].
  destruct i as [|i]; simplify_eq/=.
  - by rewrite filter_cons_False.
  - rewrite !filter_cons. by rewrite (IH i).
Qed.

End OtherOwners.

(** X14. A user's writes do not show in another user's own notes: when
    a create, an update or a delete under one token succeeds, what a user
    with another email gets from [get_my_notes] is what that user got
    before. *)
Theorem writes_leave_other_users_notes (s s' : db) (token token' note_id : string)
    (user user' : doc) (now : datetime) (generated : ObjectId)
    (note_data : NoteModel.t) (update_data : NoteUpdateModel.t) (r : response) :
  authenticated s token user →
  authenticated s token' user' →
  py_get user "email" ≠ py_get user' "email" →
  Forall has_id (notes_collection s) →
  create_note now generated note_data token s = (inr r, s') ∨
  update_note note_id update_data token s = (inr r, s') ∨
  delete_note note_id token s = (inr r, s') →
  fst (get_my_notes token' s') = fst (get_my_notes token' s).
Proof.
  intros Hauth Hauth' Hne Hid Hrun.
  assert (user_collection s' = user_collection s ∧
          Forall has_id (notes_collection s') ∧
          notes_of (py_get user' "email") (notes_collection s')
          = notes_of (py_get user' "email") (notes_collection s))
    as (Husers&Hid'&Hmine).
  { destruct Hrun as [Hrun|[Hrun|Hrun]].
    - rewrite create_note_eq, Hauth in Hrun. cbn zeta in Hrun.
      case_decide; [done|]. injection Hrun as _ <-.
      cbn [user_collection notes_collection]. split_and!; [done| |].
      + apply Forall_app. split; [done|]. constructor; [|done].
        eexists. apply stored_note_lookup_id.
      + unfold notes_of. rewrite filter_app, filter_cons_False, filter_nil.
        * apply app_nil_r.
        * unfold py_get at 1. by rewrite stored_note_created_by.
    - rewrite update_note_eq, Hauth in Hrun.
      destruct (ObjectId_of_str note_id) as [object_id|]; [|done].
      destruct (list_find _ (notes_collection s)) as [[i old]|] eqn:Hfind; [|done].
      case_decide as Hown; [done|]. case_decide; [done|].
      injection Hrun as _ <-. cbn [user_collection notes_collection].
      apply list_find_Some in Hfind as (Hi&_&_).
      rewrite Forall_forall in Hid.
      pose proof (Hid old (list_elem_of_lookup_2 _ _ _ Hi)) as Hold.
      split_and!; [done| |].
      + apply Forall_insert; [by apply Forall_forall|].
        unfold has_id. by rewrite set_fields_other.
      + unfold notes_of. eapply filter_insert_other; [done| |].
        * congruence.
        * rewrite set_fields_get_other by done. congruence.
    - rewrite delete_note_eq, Hauth in Hrun.
      destruct (ObjectId_of_str note_id) as [object_id|]; [|done].
      destruct (list_find _ (notes_collection s)) as [[i old]|] eqn:Hfind; [|done].
      case_decide as Hown; [done|].
      injection Hrun as _ <-. cbn [user_collection notes_collection].
      apply list_find_Some in Hfind as (Hi&_&_).
      split_and!; [done| |].
      + by apply Forall_delete.
      + unfold notes_of. eapply filter_delete_other; [done|]. congruence. }
  assert (authenticated s' token' user') as Hauth''.
  { unfold authenticated. by rewrite Husers. }
  rewrite !get_my_notes_eq, Hauth', Hauth'' by done.
  cbn zeta. by rewrite Hmine.
Qed.

Lemma writes_leave_other_users_notes_witness :
  authenticated Scenario.one_note "tok-alice" Scenario.alice ∧
  authenticated Scenario.one_note "tok-bob" Scenario.bob ∧
  py_get Scenario.alice "email" ≠ py_get Scenario.bob "email" ∧
  Forall has_id (notes_collection Scenario.one_note) ∧
  update_note Scenario.id1 Scenario.only_notes "tok-alice" Scenario.one_note
  = (inr Scenario.updated, Scenario.after_update) ∧
  fst (get_my_notes "tok-bob" Scenario.after_update)
  = fst (get_my_notes "tok-bob" Scenario.one_note).
Proof.
  assert (authenticated Scenario.one_note "tok-alice" Scenario.alice) as Ha
    by reflexivity.
  assert (authenticated Scenario.one_note "tok-bob" Scenario.bob) as Hb
    by reflexivity.
  assert (py_get Scenario.alice "email" ≠ py_get Scenario.bob "email") as Hne.
  { vm_compute. discriminate. }
  assert (Forall has_id (notes_collection Scenario.one_note)) as Hid.
  { apply (bool_decide_unpack _). vm_compute. exact I. }
  assert (update_note Scenario.id1 Scenario.only_notes "tok-alice"
            Scenario.one_note = (inr Scenario.updated, Scenario.after_update))
    as Hrun.
  { vm_compute. reflexivity. }
  split; [exact Ha|]. split; [exact Hb|]. split; [exact Hne|].
  split; [exact Hid|]. split; [exact Hrun|].
  exact (writes_leave_other_users_notes Scenario.one_note Scenario.after_update
           "tok-alice" "tok-bob" Scenario.id1 Scenario.alice Scenario.bob
           Scenario.now Scenario.oid2 Scenario.note_data Scenario.only_notes
           Scenario.updated Ha Hb Hne Hid (or_intror (or_introl Hrun))).
Defined.

(** ** Null fields and the creation date *)

(** X15. In the body of an update a field that is null counts like a
    field that is missing: when [project_name] and [notes] are each
    missing or null, the owner's request passes the schema and ends with
    400 "No fields to update", the collections as they were. *)
Theorem null_fields_are_no_fields (s : db) (token note_id : string)
    (user note body : doc) (object_id : ObjectId) :
  authenticated s token user →
  ObjectId_of_str note_id = Some object_id →
  note_by_id s object_id = Some note →
  py_get note "created_by_user_email" = py_get user "email" →
  body !! "project_name" = None ∨ body !! "project_name" = Some VNone →
  body !! "notes" = None ∨ body !! "notes" = Some VNone →
  put_update note_id body token s
  = (inl (HTTPException 400 "No fields to update"), s).
Proof.
  intros Hauth Hid [i Hfind]%note_by_id_list_find Hown Hp Hn.
  assert (NoteUpdateModel.validate body = Some (NoteUpdateModel.mk None None))
    as Hvalid.
  { unfold NoteUpdateModel.validate. by destruct Hp as [-> | ->], Hn as [-> | ->]. }
  unfold put_update. rewrite Hvalid, update_note_eq, Hauth, Hid, Hfind.
  by rewrite decide_False by (by intros ?).
Qed.

Lemma null_fields_are_no_fields_witness :
  authenticated Scenario.one_note "tok-alice" Scenario.alice ∧
  ObjectId_of_str Scenario.id1 = Some Scenario.oid1 ∧
  note_by_id Scenario.one_note Scenario.oid1 = Some Scenario.note1 ∧
  py_get Scenario.note1 "created_by_user_email" = py_get Scenario.alice "email" ∧
  Scenario.null_notes !! "project_name" = None ∧
  Scenario.null_notes !! "notes" = Some VNone ∧
  put_update Scenario.id1 Scenario.null_notes "tok-alice" Scenario.one_note
  = (inl (HTTPException 400 "No fields to update"), Scenario.one_note).
Proof.
  assert (authenticated Scenario.one_note "tok-alice" Scenario.alice) as Hauth
    by reflexivity.
  assert (ObjectId_of_str Scenario.id1 = Some Scenario.oid1) as Hid
    by reflexivity.
  assert (note_by_id Scenario.one_note Scenario.oid1 = Some Scenario.note1)
    as Hnote by reflexivity.
  assert (py_get Scenario.note1 "created_by_user_email"
          = py_get Scenario.alice "email") as Hown by reflexivity.
  assert (Scenario.null_notes !! "project_name" = None) as Hp by reflexivity.
  assert (Scenario.null_notes !! "notes" = Some VNone) as Hn by reflexivity.
  split; [exact Hauth|]. split; [exact Hid|]. split; [exact Hnote|].
  split; [exact Hown|]. split; [exact Hp|]. split; [exact Hn|].
  exact (null_fields_are_no_fields Scenario.one_note "tok-alice" Scenario.id1
           Scenario.alice Scenario.note1 Scenario.null_notes Scenario.oid1
           Hauth Hid Hnote Hown (or_introl Hp) (or_intror Hn)).
Defined.


